(** * Climate control engine of the portable flower storage (code.ino)

    A shallow embedding of the control core of [src/code.ino]:
    [readThresholds], [storeSensorData], [controlCoolerAndWaterPump] and the
    part of [loop] that sequences them, together with the properties of the
    threshold mapper, the bounded reading history, the hysteresis regulator
    of the thermoelectric module and the duty-cycle controller of the pump.

    Conventions.
    - The sketch keeps its state in global variables and in the GPIO output
      latches; here it is one record [World], threaded explicitly.
    - Every value the sketch obtains from the outside ([analogRead],
      [dht.readTemperature], [dht.readHumidity], [time], [millis]) is an
      argument of the function that reads it.
    - [unsigned long] is 32 bits wide on the ESP32: subtraction wraps
      modulo 2^32 and is written out as such. *)

From Stdlib Require Import ZArith QArith Qround Lia SpecFloat DecimalString Ascii.
From stdpp Require Import base gmap list strings.

Local Open Scope string_scope.
Local Open Scope list_scope.
Local Open Scope Z_scope.

(** ** Floating-point readings

    The sensor values are C [float]s.  The sketch only classifies them with
    [isnan] and orders them against [temperatureThreshold + HYSTERESIS / 2.0],
    [temperatureThreshold - HYSTERESIS / 2.0] (computed in [double]) and
    against [humidityThreshold] (converted to [float]).  A [float] converts
    to [double] without rounding, an [int] plus or minus one half is a
    [double], and an [int] of magnitude below 2^24 is a [float]; so each of
    these comparisons is the comparison of the exact values.  A reading is
    therefore a NaN, an infinity or an exact rational value, and the IEEE
    order on them is written out: every comparison with a NaN is false.
    [ieee_edges_exact] and [ieee_comparisons_agree] below check this model
    against binary32 and binary64 arithmetic over the range of the sensor. *)

Inductive cfloat : Type :=
| FNaN
| FInf (negative : bool)
| FFin (q : Q).

Definition isnan (x : cfloat) : bool :=
  match x with FNaN => true | _ => false end.

(** The partial IEEE order: [None] is "unordered". *)
Definition fcompare (x y : cfloat) : option comparison :=
  match x, y with
  | FNaN, _ | _, FNaN => None
  | FInf false, FInf false => Some Eq
  | FInf true, FInf true => Some Eq
  | FInf true, _ => Some Lt
  | FInf false, _ => Some Gt
  | _, FInf true => Some Gt
  | _, FInf false => Some Lt
  | FFin a, FFin b => Some (Qcompare a b)
  end.

(** C's [x < y], [x > y], [x <= y] and [x >= y] on floating-point operands. *)
Definition flt (x y : cfloat) : bool :=
  match fcompare x y with Some Lt => true | _ => false end.
Definition fgt (x y : cfloat) : bool := flt y x.
Definition fle (x y : cfloat) : bool :=
  match fcompare x y with Some Lt | Some Eq => true | _ => false end.
Definition fge (x y : cfloat) : bool := fle y x.

(** Conversion of an [int] to a floating-point value, and the two dead-band
    edges [T + HYSTERESIS / 2.0] and [T - HYSTERESIS / 2.0]. *)
Definition of_int (n : Z) : cfloat := FFin (inject_Z n).

Definition HYSTERESIS : Q := 1.

Definition upper_edge (T : Z) : cfloat :=
  FFin (inject_Z T + HYSTERESIS / 2)%Q.
Definition lower_edge (T : Z) : cfloat :=
  FFin (inject_Z T - HYSTERESIS / 2)%Q.

(** ** The dead-band edges in IEEE arithmetic

    The expressions of the sketch evaluated with the standard library's
    model of IEEE 754 arithmetic, to compare with the exact edges above:
    [float] is binary32, [double] is binary64. *)
Module IEEE.

(** The exact value of a floating-point datum. *)
Definition value (x : spec_float) : cfloat :=
  match x with
  | S754_zero _ => FFin 0
  | S754_infinity s => FInf s
  | S754_nan => FNaN
  | S754_finite s m e =>
      let v := match e with
               | Z0 => Z.pos m # 1
               | Z.pos p => Z.pos m * 2 ^ Z.pos p # 1
               | Z.neg p => Z.pos m # 2 ^ p
               end%Q in
      FFin (if s then - v else v)%Q
  end.

Definition float_of_int (n : Z) : spec_float := binary_normalize 24 128 n 0 false.
Definition double_of_int (n : Z) : spec_float := binary_normalize 53 1024 n 0 false.

(** The promotion of a [float] operand to [double]. *)
Definition double_of_float (x : spec_float) : spec_float :=
  match x with
  | S754_finite s m e => binary_normalize 53 1024 (cond_Zopp s (Z.pos m)) e s
  | _ => x
  end.

(** [const float HYSTERESIS = 1.0] and the literal [2.0]. *)
Definition HYSTERESIS_float : spec_float := float_of_int 1.
Definition two : spec_float := double_of_int 2.

(** [temperatureThreshold + HYSTERESIS / 2.0] and
    [temperatureThreshold - HYSTERESIS / 2.0]. *)
Definition upper_edge_double (T : Z) : spec_float :=
  SFadd 53 1024 (double_of_int T) (SFdiv 53 1024 (double_of_float HYSTERESIS_float) two).
Definition lower_edge_double (T : Z) : spec_float :=
  SFsub 53 1024 (double_of_int T) (SFdiv 53 1024 (double_of_float HYSTERESIS_float) two).

(** The two edges and the converted humidity threshold carry the exact
    values [T + 1/2], [T - 1/2] and [T]. *)
Definition exact_at (T : Z) : bool :=
  match fcompare (value (upper_edge_double T)) (upper_edge T),
        fcompare (value (lower_edge_double T)) (lower_edge T),
        fcompare (value (float_of_int T)) (of_int T) with
  | Some Eq, Some Eq, Some Eq => true
  | _, _, _ => false
  end.

End IEEE.

(** ** Machine integers *)

Definition ULONG_MOD : Z := 2 ^ 32.

(** [a - b] on two [unsigned long]s. *)
Definition usub (a b : Z) : Z := (a - b) mod ULONG_MOD.

(** ** Pins and levels *)

Inductive level : Type := LOW | HIGH.

Definition TEMP_POT_PIN : Z := 32.
Definition HUMIDITY_POT_PIN : Z := 33.
Definition COOLER_IN1_PIN : Z := 26.
Definition COOLER_IN2_PIN : Z := 27.
Definition FAN_IN1_PIN : Z := 12.
Definition FAN_IN2_PIN : Z := 13.
Definition WATERPUMP_IN1_PIN : Z := 25.
Definition WATERPUMP_IN2_PIN : Z := 4.

(** ** Data model *)

Record SensorData : Type := mkSensorData {
  temperature : cfloat;
  humidity : cfloat;
  timestamp : Z                      (* unsigned long, Unix time *)
}.

Definition waterPumpOnDuration : Z := 2000.
Definition waterPumpOffDuration : Z := 20000.
Definition waterPumpCyclePeriod : Z := waterPumpOnDuration + waterPumpOffDuration.

(** The global variables of the sketch, the output latch of every GPIO pin
    and the log of [digitalWrite] calls, oldest first. *)
Record World : Type := mkWorld {
  tecState : string;
  waterPumpState : string;
  temperatureThreshold : Z;
  humidityThreshold : Z;
  sensorReadings : list SensorData;
  waterPumpCycleStartTime : Z;
  gpio : gmap Z level;
  writes : list (Z * level)
}.

(** The state when [setup] hands over to [loop]: the initialisers of the
    globals (an [int] global without initialiser is zero), the six output
    pins configured by [pinMode] at their reset level, nothing written. *)
Definition initial_gpio : gmap Z level :=
  <[WATERPUMP_IN2_PIN := LOW]> (<[WATERPUMP_IN1_PIN := LOW]>
  (<[FAN_IN2_PIN := LOW]> (<[FAN_IN1_PIN := LOW]>
  (<[COOLER_IN2_PIN := LOW]> (<[COOLER_IN1_PIN := LOW]> ∅))))).

Definition initial_world : World :=
  {| tecState := "Inactive";
     waterPumpState := "Off";
     temperatureThreshold := 0;
     humidityThreshold := 0;
     sensorReadings := [];
     waterPumpCycleStartTime := 0;
     gpio := initial_gpio;
     writes := [] |}.

(** A pin is asserted when its latch holds [HIGH]. *)
Definition asserted (w : World) (p : Z) : Prop := gpio w !! p = Some HIGH.
Definition deasserted (w : World) (p : Z) : Prop := gpio w !! p = Some LOW.

(** ** Arduino primitives *)

(** [digitalWrite(pin, value)]. *)
Definition digitalWrite (p : Z) (v : level) (w : World) : World :=
  {| tecState := tecState w;
     waterPumpState := waterPumpState w;
     temperatureThreshold := temperatureThreshold w;
     humidityThreshold := humidityThreshold w;
     sensorReadings := sensorReadings w;
     waterPumpCycleStartTime := waterPumpCycleStartTime w;
     gpio := <[p := v]> (gpio w);
     writes := writes w ++ [(p, v)] |}.

(** Modelled from the spec: [map(x, in_min, in_max, out_min, out_max)], which
    [readThresholds] calls, is a function of the Arduino core and is not
    among the sources.  The spec describes the mapper as a linear range map
    (raw 0 to 0%, raw 4095 to 100%) whose value is [round(r / 4095 × 100)]:
    the point of the line through [(in_min, out_min)] and
    [(in_max, out_max)] at [x], rounded to the nearest integer.  Written in
    integer arithmetic, the half added before the division. *)
Definition map (x in_min in_max out_min out_max : Z) : Z :=
  (2 * (x - in_min) * (out_max - out_min) + (in_max - in_min))
  / (2 * (in_max - in_min)) + out_min.

(** Assignments to the globals. *)
Definition set_thresholds (t h : Z) (w : World) : World :=
  {| tecState := tecState w;
     waterPumpState := waterPumpState w;
     temperatureThreshold := t;
     humidityThreshold := h;
     sensorReadings := sensorReadings w;
     waterPumpCycleStartTime := waterPumpCycleStartTime w;
     gpio := gpio w;
     writes := writes w |}.

Definition set_sensorReadings (l : list SensorData) (w : World) : World :=
  {| tecState := tecState w;
     waterPumpState := waterPumpState w;
     temperatureThreshold := temperatureThreshold w;
     humidityThreshold := humidityThreshold w;
     sensorReadings := l;
     waterPumpCycleStartTime := waterPumpCycleStartTime w;
     gpio := gpio w;
     writes := writes w |}.

Definition set_tecState (s : string) (w : World) : World :=
  {| tecState := s;
     waterPumpState := waterPumpState w;
     temperatureThreshold := temperatureThreshold w;
     humidityThreshold := humidityThreshold w;
     sensorReadings := sensorReadings w;
     waterPumpCycleStartTime := waterPumpCycleStartTime w;
     gpio := gpio w;
     writes := writes w |}.

Definition set_waterPumpState (s : string) (w : World) : World :=
  {| tecState := tecState w;
     waterPumpState := s;
     temperatureThreshold := temperatureThreshold w;
     humidityThreshold := humidityThreshold w;
     sensorReadings := sensorReadings w;
     waterPumpCycleStartTime := waterPumpCycleStartTime w;
     gpio := gpio w;
     writes := writes w |}.

Definition set_waterPumpCycleStartTime (t : Z) (w : World) : World :=
  {| tecState := tecState w;
     waterPumpState := waterPumpState w;
     temperatureThreshold := temperatureThreshold w;
     humidityThreshold := humidityThreshold w;
     sensorReadings := sensorReadings w;
     waterPumpCycleStartTime := t;
     gpio := gpio w;
     writes := writes w |}.

(** Statements in sequence: [c1 >>> c2] runs [c1], then [c2]. *)
Definition seq_cmd (c1 c2 : World -> World) : World -> World :=
  fun w => c2 (c1 w).
Notation "c1 >>> c2" := (seq_cmd c1 c2) (at level 90, right associativity).

(** ** The sketch *)

(** [readThresholds]: the two arguments are what [analogRead] returns for
    [TEMP_POT_PIN] and [HUMIDITY_POT_PIN]. *)
Definition readThresholds (raw_temp raw_hum : Z) : World -> World :=
  set_thresholds (map raw_temp 0 4095 0 100) (map raw_hum 0 4095 0 100).

(** [storeSensorData]: [temp] and [hum] are what the DHT driver returns,
    [now] what [time(nullptr)] returns; the timestamp field is an
    [unsigned long]. *)
Definition storeSensorData (temp hum : cfloat) (now : Z) (w : World) : World :=
  if negb (isnan temp) && negb (isnan hum) then
    let kept :=
      if 100 <=? Z.of_nat (length (sensorReadings w))
      then tail (sensorReadings w)
      else sensorReadings w in
    let newData :=
      {| temperature := temp; humidity := hum;
         timestamp := now mod ULONG_MOD |} in
    set_sensorReadings (kept ++ [newData]) w
  else w.

(** The thermoelectric module and the fan (lines 148 to 176). *)
Definition controlCooler (latestData : SensorData) (w : World) : World :=
  if fgt (temperature latestData) (upper_edge (temperatureThreshold w)) then
    (digitalWrite COOLER_IN1_PIN HIGH >>>
     digitalWrite COOLER_IN2_PIN LOW >>>
     set_tecState "Cooling" >>>
     digitalWrite FAN_IN1_PIN HIGH >>>
     digitalWrite FAN_IN2_PIN LOW) w
  else if flt (temperature latestData) (lower_edge (temperatureThreshold w)) then
    (digitalWrite COOLER_IN1_PIN LOW >>>
     digitalWrite COOLER_IN2_PIN HIGH >>>
     set_tecState "Heating" >>>
     digitalWrite FAN_IN1_PIN HIGH >>>
     digitalWrite FAN_IN2_PIN LOW) w
  else
    (digitalWrite COOLER_IN1_PIN LOW >>>
     digitalWrite COOLER_IN2_PIN LOW >>>
     set_tecState "Inactive" >>>
     digitalWrite FAN_IN1_PIN LOW >>>
     digitalWrite FAN_IN2_PIN LOW) w.

(** The water pump (lines 179 to 206); [currentTime] is what [millis]
    returns. *)
Definition controlWaterPump (latestData : SensorData) (currentTime : Z)
    (w : World) : World :=
  if flt (humidity latestData) (of_int (humidityThreshold w)) then
    let w1 :=
      if waterPumpCyclePeriod <=? usub currentTime (waterPumpCycleStartTime w)
      then set_waterPumpCycleStartTime currentTime w
      else w in
    if usub currentTime (waterPumpCycleStartTime w1) <? waterPumpOnDuration then
      (digitalWrite WATERPUMP_IN1_PIN HIGH >>>
       digitalWrite WATERPUMP_IN2_PIN LOW >>>
       set_waterPumpState "On") w1
    else
      (digitalWrite WATERPUMP_IN1_PIN LOW >>>
       digitalWrite WATERPUMP_IN2_PIN LOW >>>
       set_waterPumpState "Off") w1
  else
    (digitalWrite WATERPUMP_IN1_PIN LOW >>>
     digitalWrite WATERPUMP_IN2_PIN LOW >>>
     set_waterPumpState "Off" >>>
     set_waterPumpCycleStartTime currentTime) w.

(** [controlCoolerAndWaterPump]: returns at once on an empty history,
    otherwise works on [sensorReadings.back()]. *)
Definition controlCoolerAndWaterPump (currentTime : Z) (w : World) : World :=
  match last (sensorReadings w) with
  | None => w
  | Some latestData =>
      (controlCooler latestData >>> controlWaterPump latestData currentTime) w
  end.

(** What one pass of [loop] reads from its environment. *)
Record Inputs : Type := mkInputs {
  raw_temp : Z;          (* analogRead(TEMP_POT_PIN) *)
  raw_hum : Z;           (* analogRead(HUMIDITY_POT_PIN) *)
  dht_temp : cfloat;     (* dht.readTemperature() *)
  dht_hum : cfloat;      (* dht.readHumidity() *)
  unix_time : Z;         (* time(nullptr) *)
  millis : Z             (* millis() *)
}.

(** One pass of [loop], as far as the state above is concerned: serving the
    web client, the display toggle and the LCD only read this state. *)
Definition loop (i : Inputs) : World -> World :=
  readThresholds (raw_temp i) (raw_hum i) >>>
  storeSensorData (dht_temp i) (dht_hum i) (unix_time i) >>>
  controlCoolerAndWaterPump (millis i).

(** The states the sketch can be in between two passes of [loop]. *)
Inductive reachable : World -> Prop :=
| reachable_init : reachable initial_world
| reachable_loop i w : reachable w -> reachable (loop i w).

(** Running [loop] over a list of inputs, first input first. *)
Definition run (inputs : list Inputs) (w : World) : World :=
  fold_left (fun w i => loop i w) inputs w.

(** The latest accepted reading, if any. *)
Definition latest (w : World) : option SensorData := last (sensorReadings w).

(** ** Vocabulary of the statements *)

(** *** Outputs of the regulator *)

(** What the regulator leaves behind in each of its three branches. *)
Definition cooling_outputs (w : World) : Prop :=
  tecState w = "Cooling" /\
  asserted w COOLER_IN1_PIN /\ deasserted w COOLER_IN2_PIN /\
  asserted w FAN_IN1_PIN /\ deasserted w FAN_IN2_PIN.

Definition heating_outputs (w : World) : Prop :=
  tecState w = "Heating" /\
  deasserted w COOLER_IN1_PIN /\ asserted w COOLER_IN2_PIN /\
  asserted w FAN_IN1_PIN /\ deasserted w FAN_IN2_PIN.

Definition inactive_outputs (w : World) : Prop :=
  tecState w = "Inactive" /\
  deasserted w COOLER_IN1_PIN /\ deasserted w COOLER_IN2_PIN /\
  deasserted w FAN_IN1_PIN /\ deasserted w FAN_IN2_PIN.

(** Between two passes of [loop] the direction pins are both low, or exactly
    one of them is high. *)
Definition direction_pins_exclusive (w : World) : Prop :=
  ~ (asserted w COOLER_IN1_PIN /\ asserted w COOLER_IN2_PIN).

(** *** Sample worlds and readings *)

(** A world with given thresholds and history, everything else as at start. *)
Definition world_with (T Hu : Z) (h : list SensorData) : World :=
  (set_thresholds T Hu >>> set_sensorReadings h) initial_world.

Definition reading (t h : Q) : SensorData :=
  {| temperature := FFin t; humidity := FFin h; timestamp := 1700000000 |}.

(** The pump modes seen by evaluations at the given times, one after the
    other, from world [w]. *)
Fixpoint pump_modes (times : list Z) (w : World) : list (Z * string) :=
  match times with
  | [] => []
  | now :: rest =>
      let w' := controlCoolerAndWaterPump now w in
      (waterPumpCycleStartTime w', waterPumpState w') :: pump_modes rest w'
  end.

(** A tick that accepts 26 degrees and 55 percent with the potentiometers
    at thresholds 24 and 50, and a later tick on which the sensor fails. *)
Definition tick_accepting : Inputs :=
  mkInputs 983 2048 (FFin 26) (FFin 55) 1700000000 8000.
Definition tick_failing : Inputs :=
  mkInputs 983 2048 FNaN FNaN 1700000002 10100.

(** *** Ingestion *)

(** A candidate reading: temperature, humidity and the Unix time at which
    it is taken. *)
Record Candidate : Type := mkCandidate {
  cand_temp : cfloat;
  cand_hum : cfloat;
  cand_time : Z
}.

Definition valid (c : Candidate) : bool :=
  negb (isnan (cand_temp c)) && negb (isnan (cand_hum c)).

(** The entry [storeSensorData] builds from an accepted candidate. *)
Definition entry_of (c : Candidate) : SensorData :=
  {| temperature := cand_temp c; humidity := cand_hum c;
     timestamp := cand_time c mod ULONG_MOD |}.

(** A sequence of ingestion steps, first candidate first. *)
Definition ingest (cands : list Candidate) (w : World) : World :=
  fold_left (fun w c => storeSensorData (cand_temp c) (cand_hum c) (cand_time c) w)
    cands w.

(** The entries of the accepted candidates, in the order of arrival. *)
Definition accepted (cands : list Candidate) : list SensorData :=
  List.map entry_of (List.filter valid cands).

(** The last 100 elements of a list. *)
Definition newest_100 {A : Type} (l : list A) : list A :=
  drop (length l - 100)%nat l.

(** The push with eviction of [storeSensorData], on the list alone. *)
Definition push_bounded (l : list SensorData) (x : SensorData) : list SensorData :=
  (if 100 <=? Z.of_nat (length l) then tail l else l) ++ [x].

(** 101 valid candidates, numbered 1 to 101 by temperature and time. *)
Definition sample_candidates : list Candidate :=
  List.map (fun n => mkCandidate (FFin (inject_Z n)) (FFin 40) n) (seqZ 1 101).

(** *** The value of the mapper as the spec words it *)

(** The spec's formula for the mapped threshold, [round(r / 4095 × 100)]:
    the integer nearest to the exact quotient.  (No quotient lies half-way
    between two integers, since 4095 is odd, so every rounding to nearest
    gives this value.) *)
Definition round_percent (r : Z) : Z :=
  Qfloor (inject_Z r / 4095 * 100 + 1 / 2)%Q.

(** *** The two comparisons in IEEE arithmetic *)

(** The [float] nearest to the ratio [n / d]; the sensor reports tenths. *)
Definition float_of_ratio (n d : Z) : spec_float :=
  SFdiv 24 128 (IEEE.float_of_int n) (IEEE.float_of_int d).

(** The branch the regulator takes, computed as the sketch does: the
    reading promoted to [double] and ordered against the [double] edges. *)
Definition ieee_thermal_branch (T : Z) (t : spec_float) : string :=
  if SFltb (IEEE.upper_edge_double T) (IEEE.double_of_float t) then "Cooling"
  else if SFltb (IEEE.double_of_float t) (IEEE.lower_edge_double T) then "Heating"
  else "Inactive".

(** The humidity test, computed as the sketch does: the threshold converted
    to [float]. *)
Definition ieee_deficit (Hu : Z) (h : spec_float) : bool :=
  SFltb h (IEEE.float_of_int Hu).

(** The same two decisions taken by the model on the exact values. *)
Definition exact_thermal_branch (T : Z) (t : spec_float) : string :=
  tecState
    (controlCooler
       {| temperature := IEEE.value t; humidity := FFin 0; timestamp := 0 |}
       (set_thresholds T 0 initial_world)).

Definition exact_deficit (Hu : Z) (h : spec_float) : bool :=
  flt (IEEE.value h) (of_int Hu).

(** Agreement of the two at reading [t] and threshold [k]. *)
Definition ieee_agrees (t : spec_float) (k : Z) : bool :=
  String.eqb (ieee_thermal_branch k t) (exact_thermal_branch k t)
  && Bool.eqb (ieee_deficit k t) (exact_deficit k t).

(** Agreement at the reading [n / 10] for all thresholds from 0 to 100. *)
Definition ieee_agrees_at_tenths (n : Z) : bool :=
  let t := float_of_ratio n 10 in forallb (ieee_agrees t) (seqZ 0 101).

(** *** Repeated ticks *)

(** The mode the pump controller leaves, as a function of the humidity, the
    threshold, the cycle start it finds and the time. *)
Definition pump_decision (h : cfloat) (Hu start now : Z) : string * Z :=
  if flt h (of_int Hu) then
    let start' := if waterPumpCyclePeriod <=? usub now start then now else start in
    (if usub now start' <? waterPumpOnDuration then "On" else "Off", start')
  else ("Off", now).

(** The state in which [loop] calls [controlCoolerAndWaterPump]. *)
Definition before_control (i : Inputs) (w : World) : World :=
  storeSensorData (dht_temp i) (dht_hum i) (unix_time i)
    (readThresholds (raw_temp i) (raw_hum i) w).

(** C8 as stated: across two ticks with the same raw analog inputs and the
    same latest accepted reading, thermal state, pump state and history
    length are the same after the second tick as after the first. *)
Definition no_drift_as_claimed : Prop :=
  forall (w : World) (i j : Inputs),
    reachable w -> sensorReadings w <> [] ->
    raw_temp j = raw_temp i -> raw_hum j = raw_hum i ->
    latest (loop i w) = latest w ->
    latest (loop j (loop i w)) = latest w ->
    tecState (loop j (loop i w)) = tecState (loop i w) /\
    waterPumpState (loop j (loop i w)) = waterPumpState (loop i w) /\
    length (sensorReadings (loop j (loop i w)))
    = length (sensorReadings (loop i w)).

(** ** The display toggle, the LCD and the status response

    The parts of [loop], [updateLCD], [handleSensorDataJSON] and [setup]
    that the control core does not need.  The panel state is the global
    [displayThresholds] and the two [static] locals of [loop]. *)

Definition PUSH_BUTTON_PIN : Z := 15.
Definition LCD_COLS : Z := 16.
Definition LCD_ROWS : Z := 2.
Definition debounceDelay : Z := 50.

Record Panel : Type := mkPanel {
  displayThresholds : bool;
  lastButtonState : level;
  lastDebounceTime : Z
}.

Definition initial_panel : Panel :=
  {| displayThresholds := false; lastButtonState := HIGH; lastDebounceTime := 0 |}.

Definition level_eqb (a b : level) : bool :=
  match a, b with
  | LOW, LOW | HIGH, HIGH => true
  | _, _ => false
  end.

(** The button logic of [loop] (lines 510 to 527).  [currentButtonState] is
    what [digitalRead(PUSH_BUTTON_PIN)] returns, [millis_change] what
    [millis] returns when the level has changed, [millis_check] what it
    returns in the test against [debounceDelay]. *)
Definition buttonLogic (currentButtonState : level)
    (millis_change millis_check : Z) (p : Panel) : Panel :=
  let debounce :=
    if level_eqb currentButtonState (lastButtonState p)
    then lastDebounceTime p else millis_change in
  let display :=
    if debounceDelay <? usub millis_check debounce then
      if level_eqb currentButtonState LOW
      then negb (displayThresholds p) else displayThresholds p
    else displayThresholds p in
  {| displayThresholds := display;
     lastButtonState := currentButtonState;
     lastDebounceTime := debounce |}.

(** [print] and [String] of an integer: its decimal numeral. *)
Definition string_of_Z (n : Z) : string := NilZero.string_of_int (Z.to_int n).

(** The calls the sketch makes on the LCD, in order. *)
Inductive LcdOp : Type :=
| LcdClear
| LcdSetCursor (col row : Z)
| LcdPrint (s : string).

(** [(char)223], the degree sign of the display. *)
Definition degree_sign : string := String (ascii_of_nat 223) EmptyString.

(** [updateLCD].  [printFloat1 x] is the text [lcd.print(x, 1)] sends. *)
Definition updateLCD (printFloat1 : cfloat -> string) (p : Panel) (w : World)
    : list LcdOp :=
  LcdClear ::
  (if displayThresholds p then
     [ LcdSetCursor 0 0;
       LcdPrint "T Thresh: ";
       LcdPrint (string_of_Z (temperatureThreshold w));
       LcdPrint degree_sign;
       LcdPrint "C";
       LcdSetCursor 0 1;
       LcdPrint "H Thresh: ";
       LcdPrint (string_of_Z (humidityThreshold w));
       LcdPrint "%" ]
   else
     match last (sensorReadings w) with
     | Some latestData =>
         [ LcdSetCursor 0 0;
           LcdPrint "Temp: ";
           LcdPrint (printFloat1 (temperature latestData));
           LcdPrint degree_sign;
           LcdPrint "C";
           LcdSetCursor 0 1;
           LcdPrint "Hum: ";
           LcdPrint (printFloat1 (humidity latestData));
           LcdPrint "%" ]
     | None =>
         [ LcdSetCursor 0 0;
           LcdPrint "Reading Sensor..." ]
     end).

(** The number of columns of [row] that a sequence of LCD calls writes to:
    [clear] homes the cursor and blanks the display, [setCursor] moves the
    cursor, [print] writes its characters from the cursor on and advances
    it.  [col] and [cur] are the cursor, [ext] the columns used so far. *)
Fixpoint lcd_extent_from (row : Z) (ops : list LcdOp) (col cur ext : Z) : Z :=
  match ops with
  | [] => ext
  | LcdClear :: rest => lcd_extent_from row rest 0 0 0
  | LcdSetCursor c r :: rest => lcd_extent_from row rest c r ext
  | LcdPrint s :: rest =>
      let col' := col + Z.of_nat (String.length s) in
      lcd_extent_from row rest col' cur
        (if (cur =? row) && (col <? col') then Z.max ext col' else ext)
  end.

Definition lcd_extent (row : Z) (ops : list LcdOp) : Z :=
  lcd_extent_from row ops 0 0 0.

(** The double quote character of the JSON text. *)
Definition dq : string := String (ascii_of_nat 34) EmptyString.

(** One element of the [data] array.  [toString1 x] is [String(x, 1)]. *)
Definition json_entry (toString1 : cfloat -> string) (data : SensorData) : string :=
  "{" +:+ dq +:+ "temperature" +:+ dq +:+ ":" +:+ toString1 (temperature data)
  +:+ ", " +:+ dq +:+ "humidity" +:+ dq +:+ ":" +:+ toString1 (humidity data)
  +:+ ", " +:+ dq +:+ "timestamp" +:+ dq +:+ ":" +:+ string_of_Z (timestamp data)
  +:+ "}".

(** The [for] loop over the history: [rest] is what is left of the vector
    from index [i] on, [size] is [sensorReadings.size()]. *)
Fixpoint json_data_loop (toString1 : cfloat -> string) (rest : list SensorData)
    (i size : Z) : string :=
  match rest with
  | [] => EmptyString
  | data :: rest' =>
      json_entry toString1 data
      +:+ (if i <? size - 1 then "," else EmptyString)
      +:+ json_data_loop toString1 rest' (i + 1) size
  end.

(** The text [handleSensorDataJSON] sends; [now] is what [time(nullptr)]
    returns, kept in an [unsigned long]. *)
Definition handleSensorDataJSON (toString1 : cfloat -> string) (now : Z)
    (w : World) : string :=
  let lastUpdateTime := now mod ULONG_MOD in
  let thresholds_and_time :=
    dq +:+ "temperatureThreshold" +:+ dq +:+ ":"
    +:+ string_of_Z (temperatureThreshold w) +:+ ","
    +:+ dq +:+ "humidityThreshold" +:+ dq +:+ ":"
    +:+ string_of_Z (humidityThreshold w) +:+ ","
    +:+ dq +:+ "lastUpdated" +:+ dq +:+ ":"
    +:+ string_of_Z lastUpdateTime +:+ "," in
  "{"
  +:+ match last (sensorReadings w) with
      | Some latestData =>
          dq +:+ "latestTemperature" +:+ dq +:+ ":"
          +:+ toString1 (temperature latestData) +:+ ","
          +:+ dq +:+ "latestHumidity" +:+ dq +:+ ":"
          +:+ toString1 (humidity latestData) +:+ ","
          +:+ thresholds_and_time
          +:+ dq +:+ "data" +:+ dq +:+ ":["
          +:+ json_data_loop toString1 (sensorReadings w) 0
                (Z.of_nat (length (sensorReadings w)))
          +:+ "]"
      | None =>
          dq +:+ "latestTemperature" +:+ dq +:+ ": null,"
          +:+ dq +:+ "latestHumidity" +:+ dq +:+ ": null,"
          +:+ thresholds_and_time
          +:+ dq +:+ "data" +:+ dq +:+ ":[]"
      end
  +:+ "," +:+ dq +:+ "tecState" +:+ dq +:+ ":" +:+ dq +:+ tecState w +:+ dq
  +:+ "," +:+ dq +:+ "waterPumpState" +:+ dq +:+ ":" +:+ dq
  +:+ waterPumpState w +:+ dq
  +:+ "}".

(** What a pass of [loop] reads for the panel. *)
Record PanelInputs : Type := mkPanelInputs {
  button : level;        (* digitalRead(PUSH_BUTTON_PIN) *)
  millis_change : Z;     (* millis() after a level change *)
  millis_check : Z       (* millis() in the debounce test *)
}.

(** A whole pass of [loop]: the control core, the button logic, then
    [updateLCD] on the resulting state. *)
Definition loop_pass (printFloat1 : cfloat -> string) (i : Inputs)
    (b : PanelInputs) (s : World * Panel) : World * Panel * list LcdOp :=
  let w' := loop i (fst s) in
  let p' := buttonLogic (button b) (millis_change b) (millis_check b) (snd s) in
  (w', p', updateLCD printFloat1 p' w').

(** The wait for the WiFi connection in [setup] (lines 457 to 462):
    [connected k] tells whether the [k]-th call of [WiFi.status] returns
    [WL_CONNECTED]; the result is the final value of [attempts]. *)
Fixpoint wifi_wait (fuel : nat) (connected : nat -> bool) (poll : nat)
    (attempts : Z) : option Z :=
  match fuel with
  | O => None
  | S fuel' =>
      if negb (connected poll) && (attempts <? 20)
      then wifi_wait fuel' connected (S poll) (attempts + 1)
      else Some attempts
  end.

(** The wait for the clock in [setup] (lines 483 to 488), entered once
    WiFi is connected: [clock k] is what
    the [k]-th call of [time(nullptr)] returns; the result is the number of
    500 ms delays taken before the loop is left. *)
Fixpoint ntp_wait (fuel : nat) (clock : nat -> Z) (poll : nat) : option nat :=
  match fuel with
  | O => None
  | S fuel' =>
      if clock poll <? 24 * 3600
      then ntp_wait fuel' clock (S poll)
      else Some poll
  end.

(** *** Vocabulary of the further statements *)

(** The branch of the regulator for temperature [t] at threshold [T]. *)
Definition thermal_branch (t : cfloat) (T : Z) : string :=
  if fgt t (upper_edge T) then "Cooling"
  else if flt t (lower_edge T) then "Heating"
  else "Inactive".

(** The pump pins in the running and in the stopped configuration. *)
Definition pump_running (w : World) : Prop :=
  waterPumpState w = "On" /\
  asserted w WATERPUMP_IN1_PIN /\ deasserted w WATERPUMP_IN2_PIN.

Definition pump_stopped (w : World) : Prop :=
  waterPumpState w = "Off" /\
  deasserted w WATERPUMP_IN1_PIN /\ deasserted w WATERPUMP_IN2_PIN.

(** An entry the ingestion step can have stored. *)
Definition stored_entry_ok (d : SensorData) : Prop :=
  isnan (temperature d) = false /\ isnan (humidity d) = false /\
  0 <= timestamp d < ULONG_MOD.

(** Raw analog inputs within the range of the converter. *)
Definition raw_in_range (i : Inputs) : Prop :=
  0 <= raw_temp i <= 4095 /\ 0 <= raw_hum i <= 4095.

(** A write the control core can issue: one of the six output pins, the
    second pin of the fan and of the pump only ever low. *)
Definition write_ok (pv : Z * level) : Prop :=
  (fst pv = COOLER_IN1_PIN \/ fst pv = COOLER_IN2_PIN \/
   fst pv = FAN_IN1_PIN \/ fst pv = FAN_IN2_PIN \/
   fst pv = WATERPUMP_IN1_PIN \/ fst pv = WATERPUMP_IN2_PIN) /\
  (fst pv = FAN_IN2_PIN \/ fst pv = WATERPUMP_IN2_PIN -> snd pv = LOW).

(** *** The claims that fail, as they are stated *)

(** The output latch after a sequence of writes, from the reset levels. *)
Definition latch_after (ws : list (Z * level)) : gmap Z level :=
  fold_left (fun g pv => <[fst pv := snd pv]> g) ws initial_gpio.

(** The latch of a state is the one its write log leads to. *)
Definition latch_in_sync (w : World) : Prop :=
  gpio w = latch_after (writes w).

(** C2 as stated, at every instant: in every run, after each single write
    the two direction pins are not both high. *)
Definition never_both_at_any_time : Prop :=
  forall w : World, reachable w ->
  forall k : nat,
    ~ (latch_after (take k (writes w)) !! COOLER_IN1_PIN = Some HIGH /\
       latch_after (take k (writes w)) !! COOLER_IN2_PIN = Some HIGH).

(** C3 as stated, with the windows measured from arming: pass [i] is the
    first to accept a reading and finds a deficit, so it arms the
    controller at [millis i]; the deficit is still there at the next pass
    [j].  The pump is On at arming, and On after pass [j] exactly in the
    first 2000 ms of a 22000 ms window counted from the arming time. *)
Definition windows_from_arming_as_claimed : Prop :=
  forall (i j : Inputs) (r1 r2 : SensorData),
    latest (loop i initial_world) = Some r1 ->
    flt (humidity r1) (of_int (humidityThreshold (loop i initial_world))) = true ->
    latest (loop j (loop i initial_world)) = Some r2 ->
    flt (humidity r2)
        (of_int (humidityThreshold (loop j (loop i initial_world)))) = true ->
    0 <= millis i <= millis j -> millis j < ULONG_MOD ->
    waterPumpState (loop i initial_world) = "On" /\
    (waterPumpState (loop j (loop i initial_world)) = "On" <->
     (millis j - millis i) mod waterPumpCyclePeriod < waterPumpOnDuration).

(** * Properties *)

(** ** The order on readings *)

Lemma flt_fin (a b : Q) : flt (FFin a) (FFin b) = true <-> (a < b)%Q.
Proof.
  unfold flt; simpl. rewrite Qlt_alt.
  destruct (a ?= b)%Q; split; congruence.
Qed.

Lemma fgt_fin (a b : Q) : fgt (FFin a) (FFin b) = true <-> (b < a)%Q.
Proof. apply flt_fin. Qed.

Lemma fle_fin (a b : Q) : fle (FFin a) (FFin b) = true <-> (a <= b)%Q.
Proof.
  unfold fle; simpl. rewrite Qle_alt.
  destruct (a ?= b)%Q; split; congruence.
Qed.

Lemma fcompare_nan_l (y : cfloat) : fcompare FNaN y = None.
Proof. reflexivity. Qed.

Lemma fcompare_nan_r (x : cfloat) : fcompare x FNaN = None.
Proof. destruct x as [|[]|]; reflexivity. Qed.

Lemma fcompare_some (x y : cfloat) :
  isnan x = false -> isnan y = false -> exists c, fcompare x y = Some c.
Proof.
  destruct x as [|[]|a], y as [|[]|b]; simpl; intros; try discriminate; eauto.
Qed.

Lemma fcompare_antisym (x y : cfloat) (c : comparison) :
  fcompare x y = Some c -> fcompare y x = Some (CompOpp c).
Proof.
  destruct x as [|[]|a], y as [|[]|b]; simpl; intros H;
    try discriminate; inversion H; subst; try reflexivity.
  f_equal. symmetry. apply Qcompare_antisym.
Qed.

(** On operands that are not NaN, [x <= y] is the negation of [y < x]. *)
Lemma fle_not_flt (x y : cfloat) :
  isnan x = false -> isnan y = false -> fle x y = negb (flt y x).
Proof.
  intros Hx Hy. destruct (fcompare_some x y Hx Hy) as [c Hc].
  unfold fle, flt. rewrite Hc, (fcompare_antisym _ _ _ Hc).
  destruct c; reflexivity.
Qed.

Lemma fge_not_flt (x y : cfloat) :
  fge x y = true -> flt x y = false.
Proof.
  unfold fge. intros H.
  assert (Hx : isnan x = false)
    by (destruct x as [|[]|], y as [|[]|]; simpl in *; try discriminate; reflexivity).
  assert (Hy : isnan y = false)
    by (destruct x as [|[]|], y as [|[]|]; simpl in *; try discriminate; reflexivity).
  rewrite fle_not_flt in H by assumption.
  apply negb_true_iff in H. exact H.
Qed.

Lemma flt_irrefl_edges (T : Z) : flt (upper_edge T) (lower_edge T) = false.
Proof.
  destruct (flt (upper_edge T) (lower_edge T)) eqn:E; [|reflexivity].
  apply flt_fin in E. exfalso. revert E.
  unfold Qlt, HYSTERESIS; simpl. lia.
Qed.

(** For a reading that is not NaN exactly one branch condition of the
    regulator holds: above the upper edge, below the lower edge, or inside
    the closed dead band. *)
Lemma dead_band_trichotomy (T : Z) (t : cfloat) :
  isnan t = false ->
  (fgt t (upper_edge T) = true /\ flt t (lower_edge T) = false) \/
  (fgt t (upper_edge T) = false /\ flt t (lower_edge T) = true) \/
  (fgt t (upper_edge T) = false /\ flt t (lower_edge T) = false /\
   fle (lower_edge T) t = true /\ fle t (upper_edge T) = true).
Proof.
  intros Ht.
  assert (Hu : fle t (upper_edge T) = negb (fgt t (upper_edge T)))
    by (apply fle_not_flt; [assumption | reflexivity]).
  assert (Hl : fle (lower_edge T) t = negb (flt t (lower_edge T)))
    by (apply fle_not_flt; [reflexivity | assumption]).
  destruct (fgt t (upper_edge T)) eqn:Eu, (flt t (lower_edge T)) eqn:El;
    simpl in Hu, Hl; auto 6.
  (* both: impossible, the band is not empty *)
  exfalso. pose proof (flt_irrefl_edges T) as Hb.
  unfold fgt in Eu.
  destruct t as [|[]|q]; try discriminate.
  apply flt_fin in Eu, El.
  assert (Hb' : ~ (inject_Z T + HYSTERESIS / 2 < inject_Z T - HYSTERESIS / 2)%Q).
  { intros C. apply flt_fin in C. unfold upper_edge, lower_edge in Hb. congruence. }
  apply Hb'. eapply Qlt_trans; eassumption.
Qed.

(** ** Frame properties of the two controllers *)

Ltac unfold_cmds :=
  unfold seq_cmd, set_tecState, set_waterPumpState,
    set_waterPumpCycleStartTime, set_sensorReadings, set_thresholds,
    digitalWrite in *.

Ltac unfold_pins :=
  unfold asserted, deasserted, COOLER_IN1_PIN, COOLER_IN2_PIN, FAN_IN1_PIN,
    FAN_IN2_PIN, WATERPUMP_IN1_PIN, WATERPUMP_IN2_PIN in *.

(** Looks a pin up in a latch built by a sequence of writes. *)
Ltac lookup_pin :=
  unfold_pins; cbn [gpio];
  repeat first [ rewrite lookup_insert_eq | rewrite lookup_insert_ne by lia ];
  try reflexivity.

Lemma controlCooler_frame (r : SensorData) (w : World) :
  let w' := controlCooler r w in
  waterPumpState w' = waterPumpState w /\
  waterPumpCycleStartTime w' = waterPumpCycleStartTime w /\
  temperatureThreshold w' = temperatureThreshold w /\
  humidityThreshold w' = humidityThreshold w /\
  sensorReadings w' = sensorReadings w /\
  gpio w' !! WATERPUMP_IN1_PIN = gpio w !! WATERPUMP_IN1_PIN /\
  gpio w' !! WATERPUMP_IN2_PIN = gpio w !! WATERPUMP_IN2_PIN.
Proof.
  unfold controlCooler.
  destruct (fgt _ _); [|destruct (flt _ _)]; unfold_cmds; cbn;
    repeat split; lookup_pin.
Qed.

Lemma controlWaterPump_frame (r : SensorData) (now : Z) (w : World) :
  let w' := controlWaterPump r now w in
  tecState w' = tecState w /\
  temperatureThreshold w' = temperatureThreshold w /\
  humidityThreshold w' = humidityThreshold w /\
  sensorReadings w' = sensorReadings w /\
  gpio w' !! COOLER_IN1_PIN = gpio w !! COOLER_IN1_PIN /\
  gpio w' !! COOLER_IN2_PIN = gpio w !! COOLER_IN2_PIN /\
  gpio w' !! FAN_IN1_PIN = gpio w !! FAN_IN1_PIN /\
  gpio w' !! FAN_IN2_PIN = gpio w !! FAN_IN2_PIN.
Proof.
  unfold controlWaterPump.
  destruct (flt _ _); [destruct (_ <=? _); destruct (_ <? _)|];
    unfold_cmds; cbn; repeat split; lookup_pin.
Qed.

Lemma controlCooler_outputs (r : SensorData) (w : World) :
  let w' := controlCooler r w in
  let T := temperatureThreshold w in
  if fgt (temperature r) (upper_edge T) then cooling_outputs w'
  else if flt (temperature r) (lower_edge T) then heating_outputs w'
  else inactive_outputs w'.
Proof.
  unfold controlCooler, cooling_outputs, heating_outputs, inactive_outputs.
  cbv zeta.
  destruct (fgt _ _); [|destruct (flt _ _)]; unfold_cmds; cbn;
    repeat split; lookup_pin.
Qed.

(** The pump controller runs after the regulator and keeps its outputs. *)
Lemma outputs_preserved (r : SensorData) (now : Z) (w : World) :
  (cooling_outputs w -> cooling_outputs (controlWaterPump r now w)) /\
  (heating_outputs w -> heating_outputs (controlWaterPump r now w)) /\
  (inactive_outputs w -> inactive_outputs (controlWaterPump r now w)).
Proof.
  destruct (controlWaterPump_frame r now w) as (Ht & _ & _ & _ & H1 & H2 & H3 & H4).
  unfold cooling_outputs, heating_outputs, inactive_outputs, asserted, deasserted.
  rewrite Ht, H1, H2, H3, H4. tauto.
Qed.

Lemma controlCoolerAndWaterPump_nonempty (now : Z) (w : World) (r : SensorData) :
  latest w = Some r ->
  controlCoolerAndWaterPump now w = controlWaterPump r now (controlCooler r w).
Proof.
  unfold latest, controlCoolerAndWaterPump. intros ->. reflexivity.
Qed.

Lemma controlCoolerAndWaterPump_empty (now : Z) (w : World) :
  sensorReadings w = [] -> controlCoolerAndWaterPump now w = w.
Proof.
  unfold controlCoolerAndWaterPump. intros ->. reflexivity.
Qed.

(** ** The hysteresis regulator *)

(** C1. On a non-empty history with latest reading [r] and threshold [T],
    one evaluation leaves: state Cooling, cooling direction asserted and fan
    on when [t > T + H/2]; state Heating, heating direction asserted and fan
    on when [t < T - H/2]; state Inactive with both directions and the fan
    off when [T - H/2 <= t <= T + H/2], edges included.  For a reading that
    is not NaN one of the three conditions holds. *)
Theorem thermal_regulator_three_way (now : Z) (w : World) (r : SensorData) :
  latest w = Some r ->
  let T := temperatureThreshold w in
  let t := temperature r in
  let w' := controlCoolerAndWaterPump now w in
  (fgt t (upper_edge T) = true -> cooling_outputs w') /\
  (flt t (lower_edge T) = true -> heating_outputs w') /\
  (fle (lower_edge T) t = true -> fle t (upper_edge T) = true ->
   inactive_outputs w') /\
  (isnan t = false ->
   fgt t (upper_edge T) = true \/ flt t (lower_edge T) = true \/
   (fle (lower_edge T) t = true /\ fle t (upper_edge T) = true)).
Proof.
  intros Hl T t w'. subst w'.
  rewrite (controlCoolerAndWaterPump_nonempty _ _ _ Hl).
  pose proof (controlCooler_outputs r w) as Hc. cbv zeta in Hc.
  destruct (outputs_preserved r now (controlCooler r w)) as (Pc & Ph & Pi).
  fold T t in Hc.
  split; [|split; [|split]].
  - intros E. rewrite E in Hc. auto.
  - intros E.
    destruct (fgt t (upper_edge T)) eqn:Eu.
    + exfalso. destruct (dead_band_trichotomy T t) as [[_ C]|[[C _]|[C _]]];
        try congruence.
      destruct t; simpl in *; try discriminate; reflexivity.
    + rewrite E in Hc. auto.
  - intros El Eu.
    assert (Hn : isnan t = false) by (destruct t; simpl in *; try discriminate; reflexivity).
    rewrite fle_not_flt in El, Eu by (assumption || reflexivity).
    apply negb_true_iff in El, Eu. fold (fgt t (upper_edge T)) in Eu.
    rewrite Eu, El in Hc. auto.
  - intros Hn.
    destruct (dead_band_trichotomy T t Hn) as [[A _]|[[_ A]|(_ & _ & A & B)]]; auto.
Qed.

(** The values of the spec's regulator test, threshold 24. *)
Example regulator_at_26 :
  tecState (controlCoolerAndWaterPump 0 (world_with 24 50 [reading 26 60])) = "Cooling".
Proof. vm_compute. reflexivity. Qed.

Example regulator_at_22 :
  tecState (controlCoolerAndWaterPump 0 (world_with 24 50 [reading 22 60])) = "Heating".
Proof. vm_compute. reflexivity. Qed.

Example regulator_at_24_2 :
  tecState (controlCoolerAndWaterPump 0 (world_with 24 50 [reading 24.2 60])) = "Inactive".
Proof. vm_compute. reflexivity. Qed.

Example regulator_at_23_5 :
  tecState (controlCoolerAndWaterPump 0 (world_with 24 50 [reading 23.5 60])) = "Inactive".
Proof. vm_compute. reflexivity. Qed.

Lemma thermal_regulator_three_way_witness :
  inactive_outputs (controlCoolerAndWaterPump 0 (world_with 24 50 [reading 24.5 60])).
Proof.
  apply (thermal_regulator_three_way 0 (world_with 24 50 [reading 24.5 60])
           (reading 24.5 60)); reflexivity.
Defined.

(** ** Empty history *)

(** In a reachable state with an empty history nothing but the thresholds
    has moved away from the initial state. *)
Lemma storeSensorData_nonempty (temp hum : cfloat) (now : Z) (w : World) :
  sensorReadings (storeSensorData temp hum now w) = [] ->
  storeSensorData temp hum now w = w /\ sensorReadings w = [].
Proof.
  unfold storeSensorData.
  destruct (negb (isnan temp) && negb (isnan hum)); [|auto].
  cbn. intros H. apply app_eq_nil in H as [_ H]. discriminate.
Qed.

Lemma controlCoolerAndWaterPump_sensorReadings (now : Z) (w : World) :
  sensorReadings (controlCoolerAndWaterPump now w) = sensorReadings w.
Proof.
  unfold controlCoolerAndWaterPump.
  destruct (last (sensorReadings w)) as [r|]; [|reflexivity].
  unfold seq_cmd.
  destruct (controlWaterPump_frame r now (controlCooler r w)) as (_ & _ & _ & -> & _).
  destruct (controlCooler_frame r w) as (_ & _ & _ & _ & -> & _). reflexivity.
Qed.

Lemma reachable_empty_history (w : World) :
  reachable w -> sensorReadings w = [] ->
  exists T Hu, w = set_thresholds T Hu initial_world.
Proof.
  induction 1 as [|i w Hr IH]; intros He.
  - exists 0, 0. reflexivity.
  - unfold loop, seq_cmd in *.
    rewrite controlCoolerAndWaterPump_sensorReadings in He.
    pose proof He as He'.
    apply storeSensorData_nonempty in He' as [Hs Hw].
    rewrite controlCoolerAndWaterPump_empty by assumption.
    rewrite Hs. cbn in Hw.
    destruct (IH Hw) as (T & Hu & ->).
    eexists _, _. reflexivity.
Qed.

(** C9. On an empty history the regulator does nothing: no output is
    written, the latches of the direction and fan pins keep their level and
    the thermal state is the one before. *)
Theorem regulator_idle_without_reading (now : Z) (w : World) :
  sensorReadings w = [] ->
  let w' := controlCoolerAndWaterPump now w in
  writes w' = writes w /\
  tecState w' = tecState w /\
  gpio w' !! COOLER_IN1_PIN = gpio w !! COOLER_IN1_PIN /\
  gpio w' !! COOLER_IN2_PIN = gpio w !! COOLER_IN2_PIN /\
  gpio w' !! FAN_IN1_PIN = gpio w !! FAN_IN1_PIN /\
  gpio w' !! FAN_IN2_PIN = gpio w !! FAN_IN2_PIN.
Proof.
  intros He w'. subst w'.
  rewrite controlCoolerAndWaterPump_empty by assumption. tauto.
Qed.

Lemma regulator_idle_without_reading_witness :
  writes (controlCoolerAndWaterPump 30000 (world_with 24 50 [])) = [] /\
  tecState (controlCoolerAndWaterPump 30000 (world_with 24 50 [])) = "Inactive".
Proof.
  destruct (regulator_idle_without_reading 30000 (world_with 24 50 []) eq_refl)
    as (Hw & Ht & _).
  split; [rewrite Hw | rewrite Ht]; reflexivity.
Defined.

(** C10. On an empty history the pump controller is skipped as well: pump
    mode, pump pins and [waterPumpCycleStartTime] are untouched and nothing
    is written.  In a reachable state the history is empty only as long as
    no reading was accepted, and then the pump mode is still the initial
    "Off", the pump pins are low and the cycle start is still 0, before and
    after the evaluation. *)
Theorem pump_idle_without_reading (now : Z) (w : World) :
  sensorReadings w = [] ->
  let w' := controlCoolerAndWaterPump now w in
  (waterPumpState w' = waterPumpState w /\
   waterPumpCycleStartTime w' = waterPumpCycleStartTime w /\
   gpio w' !! WATERPUMP_IN1_PIN = gpio w !! WATERPUMP_IN1_PIN /\
   gpio w' !! WATERPUMP_IN2_PIN = gpio w !! WATERPUMP_IN2_PIN /\
   writes w' = writes w) /\
  (reachable w ->
   waterPumpState w' = "Off" /\
   waterPumpCycleStartTime w' = 0 /\
   deasserted w' WATERPUMP_IN1_PIN /\
   deasserted w' WATERPUMP_IN2_PIN /\
   writes w' = []).
Proof.
  intros He w'. subst w'.
  rewrite controlCoolerAndWaterPump_empty by assumption.
  split; [tauto|].
  intros Hr. destruct (reachable_empty_history w Hr He) as (T & Hu & ->).
  repeat split.
Qed.

Lemma pump_idle_without_reading_witness :
  waterPumpState
    (controlCoolerAndWaterPump 30000
       (loop (mkInputs 983 2048 FNaN (FFin 40) 1700000000 28000) initial_world))
  = "Off".
Proof.
  pose (w := loop (mkInputs 983 2048 FNaN (FFin 40) 1700000000 28000) initial_world).
  assert (He : sensorReadings w = []) by reflexivity.
  assert (Hr : reachable w) by (apply reachable_loop, reachable_init).
  exact (proj1 (proj2 (pump_idle_without_reading 30000 w He) Hr)).
Defined.

(** ** Mutual exclusion of the two direction outputs *)

(** Every run of [loop] from the initial state ends in a reachable state. *)
Lemma run_reachable (inputs : list Inputs) (w : World) :
  reachable w -> reachable (run inputs w).
Proof.
  revert w. induction inputs as [|i rest IH]; intros w Hw; simpl.
  - exact Hw.
  - apply IH, reachable_loop, Hw.
Qed.

Lemma outputs_exclusive (w : World) :
  cooling_outputs w \/ heating_outputs w \/ inactive_outputs w ->
  direction_pins_exclusive w.
Proof.
  unfold direction_pins_exclusive, cooling_outputs, heating_outputs,
    inactive_outputs, asserted, deasserted.
  intros [H|[H|H]] [A B]; destruct H as (_ & H1 & H2 & _); congruence.
Qed.

Lemma controlCoolerAndWaterPump_outputs (now : Z) (w : World) (r : SensorData) :
  latest w = Some r ->
  let w' := controlCoolerAndWaterPump now w in
  cooling_outputs w' \/ heating_outputs w' \/ inactive_outputs w'.
Proof.
  intros Hl. cbv zeta.
  rewrite (controlCoolerAndWaterPump_nonempty _ _ _ Hl).
  pose proof (controlCooler_outputs r w) as Hc. cbv zeta in Hc.
  destruct (outputs_preserved r now (controlCooler r w)) as (Pc & Ph & Pi).
  destruct (fgt _ _); [|destruct (flt _ _)]; auto.
Qed.

Lemma loop_exclusive (i : Inputs) (w : World) :
  direction_pins_exclusive w -> direction_pins_exclusive (loop i w).
Proof.
  intros Hw. unfold loop, seq_cmd.
  set (w1 := storeSensorData _ _ _ _).
  destruct (latest w1) as [r|] eqn:Hl.
  - apply outputs_exclusive. eapply controlCoolerAndWaterPump_outputs; eassumption.
  - unfold latest in Hl. apply last_None in Hl.
    rewrite controlCoolerAndWaterPump_empty by assumption.
    subst w1. apply storeSensorData_nonempty in Hl as [-> _].
    exact Hw.
Qed.

(** C2, amended. In every state between two passes of [loop], that is
    after every completed evaluation, reachable from the initial state
    whatever the inputs, COOLER_IN1 and COOLER_IN2 are not both asserted. *)
Theorem direction_outputs_never_both (w : World) :
  reachable w -> direction_pins_exclusive w.
Proof.
  induction 1 as [|i w Hr IH].
  - unfold direction_pins_exclusive, asserted. intros [H _].
    vm_compute in H. discriminate.
  - apply loop_exclusive, IH.
Qed.

Lemma direction_outputs_never_both_witness :
  direction_pins_exclusive
    (loop (mkInputs 983 2048 (FFin 26) (FFin 40) 1700000002 32100)
       (loop (mkInputs 983 2048 (FFin 22) (FFin 40) 1700000000 30000)
          initial_world)).
Proof.
  apply direction_outputs_never_both.
  apply reachable_loop, reachable_loop, reachable_init.
Defined.

(** The writes and the latch go together: in every reachable state the
    latch is the one the write log leads to from the reset levels, so the
    prefixes of the log give the latch at every instant of the run. *)
Lemma digitalWrite_in_sync (p : Z) (v : level) (w : World) :
  latch_in_sync w -> latch_in_sync (digitalWrite p v w).
Proof.
  unfold latch_in_sync, latch_after, digitalWrite. cbn [gpio writes].
  intros ->. rewrite fold_left_app. reflexivity.
Qed.

Lemma controlCoolerAndWaterPump_in_sync (now : Z) (w : World) :
  latch_in_sync w -> latch_in_sync (controlCoolerAndWaterPump now w).
Proof.
  intros Hw. unfold controlCoolerAndWaterPump.
  destruct (last (sensorReadings w)) as [r|]; [|exact Hw].
  unfold seq_cmd.
  assert (Hc : latch_in_sync (controlCooler r w)).
  { unfold controlCooler.
    destruct (fgt _ _); [|destruct (flt _ _)]; unfold seq_cmd;
      repeat (apply digitalWrite_in_sync); exact Hw. }
  revert Hc. generalize (controlCooler r w) as w1. intros w1 Hc.
  unfold controlWaterPump.
  destruct (flt _ _); [destruct (_ <=? _); destruct (_ <? _)|]; unfold seq_cmd;
    first [ exact Hc | repeat (apply digitalWrite_in_sync); exact Hc ].
Qed.

Lemma latch_after_writes (w : World) : reachable w -> latch_in_sync w.
Proof.
  induction 1 as [|i w Hr IH]; [reflexivity|].
  unfold loop, seq_cmd. apply controlCoolerAndWaterPump_in_sync.
  unfold storeSensorData, readThresholds.
  destruct (negb _ && negb _); exact IH.
Qed.

(** C2, as stated, fails inside an evaluation.  The cooling branch raises
    COOLER_IN1 (line 149) before it lowers COOLER_IN2 (line 150).  After a
    pass that heats (22 degrees at threshold 24) and a pass that cools (26
    degrees), the seventh write of the run, the first of the second pass,
    leaves both direction pins high; the eighth ends it. *)
Lemma never_both_at_any_time_fails : ~ never_both_at_any_time.
Proof.
  intros H.
  apply (H (loop (mkInputs 983 2048 (FFin 26) (FFin 40) 1700000002 32100)
              (loop (mkInputs 983 2048 (FFin 22) (FFin 40) 1700000000 30000)
                 initial_world))
           (reachable_loop _ _ (reachable_loop _ _ reachable_init))
           7%nat).
  vm_compute. split; reflexivity.
Qed.

(** The invariant is one of the states between passes of [loop].  Inside an
    evaluation the two direction pins are written one after the other,
    COOLER_IN1 first: when the cooling branch is entered with the pins in
    the heating configuration, the latch holds both pins high after the
    first write, until the second write lowers COOLER_IN2. *)
Remark cooling_branch_write_order :
  let w := loop (mkInputs 983 2048 (FFin 22) (FFin 40) 1700000000 30000)
             initial_world in
  heating_outputs w /\
  asserted (digitalWrite COOLER_IN1_PIN HIGH w) COOLER_IN1_PIN /\
  asserted (digitalWrite COOLER_IN1_PIN HIGH w) COOLER_IN2_PIN /\
  deasserted
    ((digitalWrite COOLER_IN1_PIN HIGH >>> digitalWrite COOLER_IN2_PIN LOW) w)
    COOLER_IN2_PIN.
Proof. vm_compute. repeat split. Qed.

(** ** The duty-cycle controller of the pump *)

Lemma usub_self (a : Z) : usub a a = 0.
Proof. unfold usub. rewrite Z.sub_diag. reflexivity. Qed.

Lemma usub_range (a b : Z) : 0 <= usub a b < ULONG_MOD.
Proof. unfold usub, ULONG_MOD. apply Z.mod_pos_bound. lia. Qed.

(** The pump controller on a humidity deficit. *)
Lemma controlWaterPump_deficit (r : SensorData) (now : Z) (w : World) :
  flt (humidity r) (of_int (humidityThreshold w)) = true ->
  let w' := controlWaterPump r now w in
  let start' :=
    if waterPumpCyclePeriod <=? usub now (waterPumpCycleStartTime w)
    then now else waterPumpCycleStartTime w in
  waterPumpCycleStartTime w' = start' /\
  waterPumpState w' =
    (if usub now start' <? waterPumpOnDuration then "On" else "Off") /\
  gpio w' !! WATERPUMP_IN1_PIN =
    Some (if usub now start' <? waterPumpOnDuration then HIGH else LOW) /\
  gpio w' !! WATERPUMP_IN2_PIN = Some LOW.
Proof.
  intros Hd. unfold controlWaterPump. rewrite Hd. cbv zeta.
  destruct (waterPumpCyclePeriod <=? usub now (waterPumpCycleStartTime w));
    unfold_cmds; cbn [waterPumpCycleStartTime];
    destruct (usub now _ <? waterPumpOnDuration);
    cbn; repeat split; lookup_pin.
Qed.

(** The pump controller when the humidity threshold is met. *)
Lemma controlWaterPump_satisfied (r : SensorData) (now : Z) (w : World) :
  flt (humidity r) (of_int (humidityThreshold w)) = false ->
  let w' := controlWaterPump r now w in
  waterPumpCycleStartTime w' = now /\
  waterPumpState w' = "Off" /\
  gpio w' !! WATERPUMP_IN1_PIN = Some LOW /\
  gpio w' !! WATERPUMP_IN2_PIN = Some LOW.
Proof.
  intros Hd. unfold controlWaterPump. rewrite Hd.
  unfold_cmds; cbn; repeat split; lookup_pin.
Qed.

(** One evaluation under a humidity deficit, the regulator included. *)
Lemma controlCoolerAndWaterPump_deficit (now : Z) (w : World) (r : SensorData) :
  latest w = Some r ->
  flt (humidity r) (of_int (humidityThreshold w)) = true ->
  let w' := controlCoolerAndWaterPump now w in
  let start' :=
    if waterPumpCyclePeriod <=? usub now (waterPumpCycleStartTime w)
    then now else waterPumpCycleStartTime w in
  waterPumpCycleStartTime w' = start' /\
  waterPumpState w' =
    (if usub now start' <? waterPumpOnDuration then "On" else "Off") /\
  gpio w' !! WATERPUMP_IN1_PIN =
    Some (if usub now start' <? waterPumpOnDuration then HIGH else LOW) /\
  gpio w' !! WATERPUMP_IN2_PIN = Some LOW.
Proof.
  intros Hl Hd. cbv zeta.
  rewrite (controlCoolerAndWaterPump_nonempty _ _ _ Hl).
  destruct (controlCooler_frame r w) as (_ & Hs & _ & Hh & _).
  rewrite <- Hh in Hd. rewrite <- Hs.
  exact (controlWaterPump_deficit r now (controlCooler r w) Hd).
Qed.

(** C3, as stated, fails where it measures the windows from arming.  From
    the initial state, cycle start 0, a first pass at 8000 ms accepts 24
    degrees and 40 percent under thresholds 24 and 50: the controller is
    armed, 8000 ms into the cycle that started at 0, and the pump is Off. *)
Lemma windows_from_arming_as_claimed_fails : ~ windows_from_arming_as_claimed.
Proof.
  intros H.
  destruct (H (mkInputs 983 2048 (FFin 24) (FFin 40) 1700000000 8000)
              (mkInputs 983 2048 FNaN FNaN 1700000002 10100)
              (reading 24 40) (reading 24 40)) as [Hon _];
    try reflexivity.
  - vm_compute. split; discriminate.
  - vm_compute in Hon. discriminate.
Qed.

(** C3, amended. While the latest accepted humidity is strictly below the
    threshold, an evaluation at time [now] restarts the cycle at [now] when
    22000 ms or more have elapsed since [waterPumpCycleStartTime] and keeps
    the start otherwise; afterwards the position in the cycle, counted from
    [waterPumpCycleStartTime], is below 22000 ms, the pump mode is On
    exactly when that position is below 2000 ms and Off exactly for the
    rest of the cycle (2000 to 21999 ms), and the pump pins are driven
    accordingly. *)
Theorem pump_duty_cycle (now : Z) (w : World) (r : SensorData) :
  latest w = Some r ->
  flt (humidity r) (of_int (humidityThreshold w)) = true ->
  let w' := controlCoolerAndWaterPump now w in
  let elapsed := usub now (waterPumpCycleStartTime w) in
  let position := usub now (waterPumpCycleStartTime w') in
  (waterPumpCyclePeriod <= elapsed -> waterPumpCycleStartTime w' = now) /\
  (elapsed < waterPumpCyclePeriod ->
   waterPumpCycleStartTime w' = waterPumpCycleStartTime w) /\
  0 <= position < waterPumpCyclePeriod /\
  (waterPumpState w' = "On" <-> position < waterPumpOnDuration) /\
  (waterPumpState w' = "Off" <->
   waterPumpOnDuration <= position < waterPumpCyclePeriod) /\
  (waterPumpState w' = "On" ->
   asserted w' WATERPUMP_IN1_PIN /\ deasserted w' WATERPUMP_IN2_PIN) /\
  (waterPumpState w' = "Off" ->
   deasserted w' WATERPUMP_IN1_PIN /\ deasserted w' WATERPUMP_IN2_PIN).
Proof.
  intros Hl Hd. cbv zeta.
  destruct (controlCoolerAndWaterPump_deficit now w r Hl Hd)
    as (Hstart & Hmode & Hp1 & Hp2).
  unfold asserted, deasserted. rewrite Hstart, Hmode, Hp1, Hp2.
  pose proof (usub_range now (waterPumpCycleStartTime w)) as Hr.
  destruct (Z.leb_spec waterPumpCyclePeriod (usub now (waterPumpCycleStartTime w)))
    as [Hge|Hlt].
  - rewrite usub_self.
    change (0 <? waterPumpOnDuration) with true.
    unfold waterPumpCyclePeriod, waterPumpOnDuration, waterPumpOffDuration in *.
    repeat split; intros; try lia; try congruence.
  - destruct (Z.ltb_spec (usub now (waterPumpCycleStartTime w)) waterPumpOnDuration)
      as [Hon|Hoff];
    unfold waterPumpCyclePeriod, waterPumpOnDuration, waterPumpOffDuration in *;
    repeat split; intros; try lia; try congruence.
Qed.

Lemma pump_duty_cycle_witness :
  waterPumpState
    (controlCoolerAndWaterPump 8000 (world_with 24 50 [reading 24 40])) = "Off".
Proof.
  pose (w := world_with 24 50 [reading 24 40]).
  assert (Hl : latest w = Some (reading 24 40)) by reflexivity.
  assert (Hd : flt (humidity (reading 24 40)) (of_int (humidityThreshold w)) = true)
    by reflexivity.
  destruct (pump_duty_cycle 8000 w (reading 24 40) Hl Hd)
    as (_ & _ & _ & _ & [_ Hoff] & _).
  apply Hoff. vm_compute. split; [discriminate | reflexivity].
Defined.

(** Threshold 50 and humidity 40 throughout, cycle start 0.  The evaluation
    at 30000 ms finds the cycle over and restarts it: On up to 31999 ms, Off
    from 32000 to 51999 ms, and the evaluation at 52000 ms starts the next
    cycle. *)
Example pump_cycle_timeline :
  pump_modes [30000; 31999; 32000; 51999; 52000; 53999; 54000]
    (world_with 24 50 [reading 24 40])
  = [(30000, "On"); (30000, "On"); (30000, "Off"); (30000, "Off");
     (52000, "On"); (52000, "On"); (52000, "Off")].
Proof. vm_compute. reflexivity. Qed.

(** The same deficit first evaluated at 8000 ms: the cycle that started at
    0 is in its off part, and the pump stays Off until the evaluation at
    22000 ms restarts the cycle. *)
Example pump_cycle_timeline_from_start :
  pump_modes [8000; 10000; 20000; 21999; 22000; 23999; 24000]
    (world_with 24 50 [reading 24 40])
  = [(0, "Off"); (0, "Off"); (0, "Off"); (0, "Off");
     (22000, "On"); (22000, "On"); (22000, "Off")].
Proof. vm_compute. reflexivity. Qed.

(** A deficit seen 2100 ms after a pass that found the humidity met: the
    cycle restarted at that pass, so the pump is Off. *)
Example pump_off_after_rearming :
  waterPumpState
    (loop (mkInputs 983 2048 (FFin 24) (FFin 40) 1700000002 32100)
       (loop (mkInputs 983 2048 (FFin 24) (FFin 55) 1700000000 30000)
          initial_world)) = "Off".
Proof. vm_compute. reflexivity. Qed.



(** ** The bounded history *)

Lemma storeSensorData_valid (c : Candidate) (w : World) :
  valid c = true ->
  sensorReadings (storeSensorData (cand_temp c) (cand_hum c) (cand_time c) w)
  = push_bounded (sensorReadings w) (entry_of c).
Proof.
  unfold storeSensorData, valid. intros ->. reflexivity.
Qed.

Lemma storeSensorData_invalid (c : Candidate) (w : World) :
  valid c = false ->
  storeSensorData (cand_temp c) (cand_hum c) (cand_time c) w = w.
Proof.
  unfold storeSensorData, valid. intros ->. reflexivity.
Qed.

Lemma newest_100_short {A : Type} (l : list A) :
  (length l <= 100)%nat -> newest_100 l = l.
Proof.
  intros H. unfold newest_100.
  replace (length l - 100)%nat with 0%nat by lia. reflexivity.
Qed.

Lemma newest_100_length {A : Type} (l : list A) :
  (length (newest_100 l) <= 100)%nat.
Proof. unfold newest_100. rewrite length_drop. lia. Qed.

(** Pushing onto a list within capacity and then taking the newest 100 of
    what follows is taking the newest 100 of everything. *)
Lemma newest_100_push (l m : list SensorData) (x : SensorData) :
  (length l <= 100)%nat ->
  newest_100 (push_bounded l x ++ m) = newest_100 (l ++ x :: m).
Proof.
  intros Hl. unfold push_bounded.
  destruct (Z.leb_spec 100 (Z.of_nat (length l))) as [Hfull|Hroom].
  - destruct l as [|a t]; [simpl in Hfull; lia|].
    simpl tail. unfold newest_100.
    replace ((a :: t) ++ x :: m) with (a :: ((t ++ [x]) ++ m))
      by (simpl; rewrite <- app_assoc; reflexivity).
    assert (Hlen : length ((t ++ [x]) ++ m) = (100 + length m)%nat)
      by (rewrite !length_app; simpl in *; lia).
    cbn [length]. rewrite Hlen.
    replace (S (100 + length m) - 100)%nat with (S (100 + length m - 100))
      by lia.
    reflexivity.
  - rewrite <- app_assoc. reflexivity.
Qed.

Lemma push_bounded_length (l : list SensorData) (x : SensorData) :
  (length l <= 100)%nat -> (length (push_bounded l x) <= 100)%nat.
Proof.
  intros Hl. unfold push_bounded. rewrite length_app. simpl.
  destruct (Z.leb_spec 100 (Z.of_nat (length l))).
  - destruct l; simpl in *; lia.
  - lia.
Qed.

(** After any sequence of ingestion steps the history is the newest 100 of
    what it held before followed by the accepted entries. *)
Lemma ingest_history (cands : list Candidate) (w : World) :
  (length (sensorReadings w) <= 100)%nat ->
  sensorReadings (ingest cands w)
  = newest_100 (sensorReadings w ++ accepted cands).
Proof.
  revert w. induction cands as [|c cs IH]; intros w Hw.
  - simpl. unfold accepted. simpl. rewrite app_nil_r.
    symmetry. apply newest_100_short, Hw.
  - change (ingest (c :: cs) w)
      with (ingest cs (storeSensorData (cand_temp c) (cand_hum c) (cand_time c) w)).
    unfold accepted. simpl List.filter.
    destruct (valid c) eqn:Hv.
    + rewrite IH by (rewrite storeSensorData_valid by assumption;
                     apply push_bounded_length, Hw).
      rewrite storeSensorData_valid by assumption.
      apply newest_100_push, Hw.
    + rewrite storeSensorData_invalid by assumption.
      apply IH, Hw.
Qed.

(** C5. Starting from the empty buffer, after any sequence of ingestion
    steps the history holds at most 100 entries and is exactly the newest
    100 accepted entries in the order of arrival; a valid reading that
    arrives at a full buffer evicts the oldest entry and goes to the end;
    after 101 accepted readings the length is 100 and the first element is
    the second reading inserted. *)
Theorem history_bounded_fifo (cands : list Candidate) (w : World) :
  sensorReadings w = [] ->
  let h := sensorReadings (ingest cands w) in
  (length h <= 100)%nat /\
  h = newest_100 (accepted cands) /\
  (forall c : Candidate,
     valid c = true -> length h = 100%nat ->
     sensorReadings (ingest (cands ++ [c]) w) = tail h ++ [entry_of c]) /\
  (length (accepted cands) = 101%nat ->
   length h = 100%nat /\ h !! 0%nat = accepted cands !! 1%nat /\
   h = tail (accepted cands)).
Proof.
  intros He h.
  assert (Hh : h = newest_100 (accepted cands)).
  { subst h. rewrite ingest_history by (rewrite He; simpl; lia).
    rewrite He. reflexivity. }
  split; [rewrite Hh; apply newest_100_length|].
  split; [exact Hh|].
  split.
  - intros c Hv Hfull.
    unfold ingest. rewrite fold_left_app. simpl.
    fold (ingest cands w). rewrite storeSensorData_valid by assumption.
    fold h. unfold push_bounded. rewrite Hfull. reflexivity.
  - intros H101.
    assert (Ht : h = tail (accepted cands)).
    { rewrite Hh. unfold newest_100. rewrite H101.
      destruct (accepted cands); reflexivity. }
    rewrite Ht. destruct (accepted cands) as [|a l]; [discriminate|].
    simpl in *. repeat split. lia.
Qed.

Lemma history_bounded_fifo_witness :
  length (sensorReadings (ingest sample_candidates initial_world)) = 100%nat /\
  sensorReadings (ingest sample_candidates initial_world) !! 0%nat
  = Some {| temperature := FFin 2; humidity := FFin 40; timestamp := 2 |}.
Proof.
  destruct (history_bounded_fifo sample_candidates initial_world eq_refl)
    as (_ & _ & _ & H101).
  destruct (H101 eq_refl) as (Hlen & Hfirst & _).
  split; [exact Hlen|]. rewrite Hfirst. reflexivity.
Defined.

Lemma storeSensorData_nan (temp hum : cfloat) (now : Z) (w : World) :
  isnan temp = true \/ isnan hum = true ->
  storeSensorData temp hum now w = w.
Proof.
  intros Hn. unfold storeSensorData. destruct Hn as [-> | ->]; simpl.
  - reflexivity.
  - rewrite andb_false_r. reflexivity.
Qed.

(** C6. A candidate whose temperature or humidity is NaN is dropped: the
    call returns normally with the state it was given, so the history, its
    length and the latest reading are those of the previous tick. *)
Theorem invalid_reading_rejected (temp hum : cfloat) (now : Z) (w : World) :
  isnan temp = true \/ isnan hum = true ->
  let w' := storeSensorData temp hum now w in
  w' = w /\
  sensorReadings w' = sensorReadings w /\
  length (sensorReadings w') = length (sensorReadings w) /\
  latest w' = latest w.
Proof.
  intros Hn. cbv zeta.
  rewrite (storeSensorData_nan temp hum now w Hn). tauto.
Qed.

Lemma invalid_reading_rejected_witness :
  latest (storeSensorData (FFin 25) FNaN 1700000002
            (world_with 24 50 [reading 24 40]))
  = Some (reading 24 40).
Proof.
  exact (proj2 (proj2 (proj2
    (invalid_reading_rejected (FFin 25) FNaN 1700000002
       (world_with 24 50 [reading 24 40]) (or_intror eq_refl))))).
Defined.

(** ** The threshold mapper *)

Lemma round_percent_div (r : Z) : round_percent r = (200 * r + 4095) / 8190.
Proof.
  unfold round_percent, Qfloor. simpl. f_equal. lia.
Qed.

Lemma map_percent (r : Z) : map r 0 4095 0 100 = (200 * r + 4095) / 8190.
Proof.
  unfold map. rewrite Z.add_0_r, !Z.sub_0_r.
  change (2 * 4095) with 8190. f_equal. lia.
Qed.

Lemma map_range (r : Z) : 0 <= r <= 4095 -> 0 <= map r 0 4095 0 100 <= 100.
Proof.
  intros Hr. rewrite map_percent. Z.div_mod_to_equations; lia.
Qed.

(** C7. For a raw input [r] in [0, 4095] the mapper yields
    [round(r / 4095 × 100)]; the value lies in [0, 100], is monotonic
    non-decreasing in [r], is 0 at raw 0 and 100 at raw 4095, and is what
    [readThresholds] stores in either threshold. *)
Theorem threshold_map_rounds (r : Z) :
  0 <= r <= 4095 ->
  map r 0 4095 0 100 = round_percent r /\
  0 <= map r 0 4095 0 100 <= 100 /\
  (forall r' : Z, r <= r' <= 4095 -> map r 0 4095 0 100 <= map r' 0 4095 0 100) /\
  map 0 0 4095 0 100 = 0 /\
  map 4095 0 4095 0 100 = 100 /\
  (forall (other : Z) (w : World),
     temperatureThreshold (readThresholds r other w) = map r 0 4095 0 100 /\
     humidityThreshold (readThresholds other r w) = map r 0 4095 0 100).
Proof.
  intros Hr.
  split; [rewrite map_percent, round_percent_div; reflexivity|].
  split; [apply map_range, Hr|].
  split.
  { intros r' Hr'. rewrite !map_percent.
    apply Z.div_le_mono; lia. }
  split; [reflexivity|].
  split; [reflexivity|].
  intros other w. split; reflexivity.
Qed.

Lemma threshold_map_rounds_witness :
  map 21 0 4095 0 100 = 1 /\ 0 <= map 21 0 4095 0 100 <= 100.
Proof.
  assert (Hr : 0 <= 21 <= 4095) by lia.
  destruct (threshold_map_rounds 21 Hr) as (Hv & Hb & _).
  split; [rewrite Hv; reflexivity | exact Hb].
Defined.

(** ** Repeated ticks on unchanged inputs *)

(** What the regulator writes depends only on the latest temperature and
    the temperature threshold. *)
Lemma regulator_determined (na nb : Z) (wa wb : World) (ra rb : SensorData) :
  latest wa = Some ra -> latest wb = Some rb ->
  temperature ra = temperature rb ->
  temperatureThreshold wa = temperatureThreshold wb ->
  let wa' := controlCoolerAndWaterPump na wa in
  let wb' := controlCoolerAndWaterPump nb wb in
  tecState wa' = tecState wb' /\
  gpio wa' !! COOLER_IN1_PIN = gpio wb' !! COOLER_IN1_PIN /\
  gpio wa' !! COOLER_IN2_PIN = gpio wb' !! COOLER_IN2_PIN /\
  gpio wa' !! FAN_IN1_PIN = gpio wb' !! FAN_IN1_PIN /\
  gpio wa' !! FAN_IN2_PIN = gpio wb' !! FAN_IN2_PIN.
Proof.
  intros Ha Hb Ht HT. cbv zeta.
  rewrite (controlCoolerAndWaterPump_nonempty _ _ _ Ha),
          (controlCoolerAndWaterPump_nonempty _ _ _ Hb).
  pose proof (controlCooler_outputs ra wa) as Oa.
  pose proof (controlCooler_outputs rb wb) as Ob.
  cbv zeta in Oa, Ob. rewrite Ht, HT in Oa.
  destruct (outputs_preserved ra na (controlCooler ra wa)) as (Ca & Ha' & Ia).
  destruct (outputs_preserved rb nb (controlCooler rb wb)) as (Cb & Hb' & Ib).
  unfold cooling_outputs, heating_outputs, inactive_outputs,
    asserted, deasserted in *.
  destruct (fgt _ _); [|destruct (flt _ _)];
    [ specialize (Ca Oa); specialize (Cb Ob);
      destruct Ca as (-> & -> & -> & -> & ->);
      destruct Cb as (-> & -> & -> & -> & ->)
    | specialize (Ha' Oa); specialize (Hb' Ob);
      destruct Ha' as (-> & -> & -> & -> & ->);
      destruct Hb' as (-> & -> & -> & -> & ->)
    | specialize (Ia Oa); specialize (Ib Ob);
      destruct Ia as (-> & -> & -> & -> & ->);
      destruct Ib as (-> & -> & -> & -> & ->) ];
    repeat split.
Qed.

Lemma pump_determined (now : Z) (w : World) (r : SensorData) :
  latest w = Some r ->
  let w' := controlCoolerAndWaterPump now w in
  (waterPumpState w', waterPumpCycleStartTime w')
  = pump_decision (humidity r) (humidityThreshold w)
      (waterPumpCycleStartTime w) now.
Proof.
  intros Hl. cbv zeta.
  rewrite (controlCoolerAndWaterPump_nonempty _ _ _ Hl).
  destruct (controlCooler_frame r w) as (_ & Hs & _ & Hh & _).
  unfold pump_decision. rewrite <- Hs, <- Hh.
  destruct (flt (humidity r) (of_int (humidityThreshold (controlCooler r w))))
    eqn:Hd.
  - destruct (controlWaterPump_deficit r now _ Hd) as (-> & -> & _). reflexivity.
  - destruct (controlWaterPump_satisfied r now _ Hd) as (-> & -> & _). reflexivity.
Qed.

(** Evaluating the pump controller twice at the same time changes nothing
    the second time. *)
Lemma pump_decision_idempotent (h : cfloat) (Hu start now : Z) :
  pump_decision h Hu (snd (pump_decision h Hu start now)) now
  = pump_decision h Hu start now.
Proof.
  unfold pump_decision.
  destruct (flt h (of_int Hu)); cbn [snd]; [|reflexivity].
  destruct (Z.leb_spec waterPumpCyclePeriod (usub now start)) as [Hge|Hlt].
  - rewrite usub_self.
    change (waterPumpCyclePeriod <=? 0) with false. cbv iota.
    rewrite usub_self. reflexivity.
  - destruct (Z.leb_spec waterPumpCyclePeriod (usub now start)); [lia|reflexivity].
Qed.

Lemma loop_unfold (i : Inputs) (w : World) :
  loop i w =
  controlCoolerAndWaterPump (millis i)
    (storeSensorData (dht_temp i) (dht_hum i) (unix_time i)
       (readThresholds (raw_temp i) (raw_hum i) w)).
Proof. reflexivity. Qed.

Lemma loop_thresholds (i : Inputs) (w : World) :
  temperatureThreshold (loop i w) = map (raw_temp i) 0 4095 0 100 /\
  humidityThreshold (loop i w) = map (raw_hum i) 0 4095 0 100.
Proof.
  rewrite loop_unfold.
  set (w0 := storeSensorData _ _ _ _).
  assert (H0 : temperatureThreshold w0 = map (raw_temp i) 0 4095 0 100 /\
               humidityThreshold w0 = map (raw_hum i) 0 4095 0 100).
  { subst w0. unfold storeSensorData.
    destruct (negb _ && negb _); split; reflexivity. }
  unfold controlCoolerAndWaterPump.
  destruct (last (sensorReadings w0)) as [r|]; [|exact H0].
  unfold seq_cmd.
  destruct (controlWaterPump_frame r (millis i) (controlCooler r w0))
    as (_ & -> & -> & _).
  destruct (controlCooler_frame r w0) as (_ & _ & -> & -> & _).
  exact H0.
Qed.

(** C8, as stated, fails.  A first tick at 8000 ms accepts 24 degrees and
    40 percent under thresholds 24 and 50; the sensor then fails twice while the
    potentiometers stay where they are.  At 20000 ms the pump is Off, at
    22100 ms the cycle restarts and the pump is On. *)
Lemma no_drift_as_claimed_fails : ~ no_drift_as_claimed.
Proof.
  intros H.
  specialize (H (loop (mkInputs 983 2048 (FFin 24) (FFin 40) 1700000000 8000)
                   initial_world)
                (mkInputs 983 2048 FNaN FNaN 1700000012 20000)
                (mkInputs 983 2048 FNaN FNaN 1700000014 22100)).
  destruct H as (_ & Hp & _).
  - apply reachable_loop, reachable_init.
  - discriminate.
  - reflexivity.
  - reflexivity.
  - reflexivity.
  - reflexivity.
  - vm_compute in Hp. discriminate.
Qed.

Lemma before_control_fields (i : Inputs) (w : World) :
  let w0 := before_control i w in
  temperatureThreshold w0 = map (raw_temp i) 0 4095 0 100 /\
  humidityThreshold w0 = map (raw_hum i) 0 4095 0 100 /\
  waterPumpCycleStartTime w0 = waterPumpCycleStartTime w /\
  latest (loop i w) = latest w0.
Proof.
  cbv zeta. repeat split;
    try (unfold before_control, storeSensorData;
         destruct (negb _ && negb _); reflexivity).
  unfold latest. rewrite loop_unfold.
  rewrite controlCoolerAndWaterPump_sensorReadings. reflexivity.
Qed.

(** C8, amended.  Take two consecutive ticks with the same raw analog
    inputs after which the latest accepted reading carries the same
    temperature and humidity.  Then the thermal state and the direction and
    fan outputs are the same after both ticks; the history is the same when
    the second tick accepts no new reading; the pump mode is Off after both
    ticks when the humidity has reached the threshold, and pump mode and
    cycle start are the same when the second tick is evaluated at the time
    of the first.  Under a humidity deficit the pump mode follows the clock
    through the duty cycle and is not claimed stable. *)
Theorem stable_under_unchanged_inputs (w : World) (i j : Inputs)
    (r1 r2 : SensorData) :
  raw_temp j = raw_temp i -> raw_hum j = raw_hum i ->
  latest (loop i w) = Some r1 ->
  latest (loop j (loop i w)) = Some r2 ->
  temperature r2 = temperature r1 -> humidity r2 = humidity r1 ->
  let w1 := loop i w in
  let w2 := loop j w1 in
  (tecState w2 = tecState w1 /\
   gpio w2 !! COOLER_IN1_PIN = gpio w1 !! COOLER_IN1_PIN /\
   gpio w2 !! COOLER_IN2_PIN = gpio w1 !! COOLER_IN2_PIN /\
   gpio w2 !! FAN_IN1_PIN = gpio w1 !! FAN_IN1_PIN /\
   gpio w2 !! FAN_IN2_PIN = gpio w1 !! FAN_IN2_PIN) /\
  (isnan (dht_temp j) = true \/ isnan (dht_hum j) = true ->
   sensorReadings w2 = sensorReadings w1 /\
   length (sensorReadings w2) = length (sensorReadings w1)) /\
  (fge (humidity r1) (of_int (humidityThreshold w1)) = true ->
   waterPumpState w1 = "Off" /\ waterPumpState w2 = "Off") /\
  (millis j = millis i ->
   waterPumpState w2 = waterPumpState w1 /\
   waterPumpCycleStartTime w2 = waterPumpCycleStartTime w1).
Proof.
  intros HrT HrH Hl1 Hl2 Ht Hh. cbv zeta.
  destruct (before_control_fields i w) as (HT1 & HH1 & HS1 & HL1).
  destruct (before_control_fields j (loop i w)) as (HT2 & HH2 & HS2 & HL2).
  cbv zeta in HL1, HL2. rewrite Hl1 in HL1. rewrite Hl2 in HL2.
  symmetry in HL1, HL2.
  pose proof (pump_determined (millis i) _ _ HL1) as P1.
  pose proof (pump_determined (millis j) _ _ HL2) as P2.
  cbv zeta in P1, P2. fold (before_control i w) in P1.
  change (controlCoolerAndWaterPump (millis i) (before_control i w))
    with (loop i w) in P1.
  change (controlCoolerAndWaterPump (millis j) (before_control j (loop i w)))
    with (loop j (loop i w)) in P2.
  rewrite HH1, HS1 in P1. rewrite HH2, HS2, HrH, Hh in P2.
  destruct (loop_thresholds i w) as (_ & HH1').
  split; [|split; [|split]].
  - change (loop j (loop i w))
      with (controlCoolerAndWaterPump (millis j) (before_control j (loop i w))).
    change (loop i w)
      with (controlCoolerAndWaterPump (millis i) (before_control i w)) at 2 4 6 8 10.
    apply (regulator_determined _ _ _ _ r2 r1); try assumption.
    rewrite HT1, HT2, HrT. reflexivity.
  - intros Hn. rewrite (loop_unfold j).
    rewrite controlCoolerAndWaterPump_sensorReadings.
    rewrite (storeSensorData_nan (dht_temp j) (dht_hum j) (unix_time j)
               (readThresholds (raw_temp j) (raw_hum j) (loop i w)) Hn).
    split; reflexivity.
  - intros Hg. rewrite HH1' in Hg. apply fge_not_flt in Hg.
    unfold pump_decision in P1, P2. rewrite Hg in P1, P2.
    split; congruence.
  - intros Hm. rewrite Hm in P2.
    assert (Hs : waterPumpCycleStartTime (loop i w)
                 = snd (pump_decision (humidity r1) (map (raw_hum i) 0 4095 0 100)
                          (waterPumpCycleStartTime w) (millis i)))
      by (rewrite <- P1; reflexivity).
    rewrite Hs, pump_decision_idempotent, <- P1 in P2.
    split; congruence.
Qed.

Lemma stable_under_unchanged_inputs_witness :
  tecState (loop tick_failing (loop tick_accepting initial_world))
  = tecState (loop tick_accepting initial_world).
Proof.
  exact (proj1 (proj1
    (stable_under_unchanged_inputs initial_world tick_accepting tick_failing
       {| temperature := FFin 26; humidity := FFin 55; timestamp := 1700000000 |}
       {| temperature := FFin 26; humidity := FFin 55; timestamp := 1700000000 |}
       eq_refl eq_refl eq_refl eq_refl eq_refl eq_refl))).
Defined.

(** ** The edges in IEEE arithmetic *)

(** For every threshold the mapper can produce, the [double] computed for
    either edge of the dead band and the [float] the humidity threshold is
    converted to have exactly the values used in the comparisons above. *)
Lemma ieee_edges_exact (T : Z) : 0 <= T <= 100 -> IEEE.exact_at T = true.
Proof.
  intros HT.
  assert (Hall : forallb IEEE.exact_at (seqZ 0 101) = true) by (vm_compute; reflexivity).
  rewrite forallb_forall in Hall. apply Hall.
  apply list_elem_of_In, elem_of_seqZ. lia.
Qed.

(** For every such threshold and every reading of a whole number of tenths
    between 0.0 and 100.0, the comparisons carried out in binary32 and
    binary64 arithmetic take the branch the model takes on exact values. *)
Lemma ieee_comparisons_agree (k n : Z) :
  0 <= k <= 100 -> 0 <= n <= 1000 ->
  ieee_thermal_branch k (float_of_ratio n 10)
  = exact_thermal_branch k (float_of_ratio n 10) /\
  ieee_deficit k (float_of_ratio n 10) = exact_deficit k (float_of_ratio n 10).
Proof.
  intros Hk Hn.
  assert (Hall : forallb ieee_agrees_at_tenths (seqZ 0 1001) = true)
    by (vm_compute; reflexivity).
  rewrite forallb_forall in Hall.
  assert (Hn' : In n (seqZ 0 1001)) by (apply list_elem_of_In, elem_of_seqZ; lia).
  specialize (Hall n Hn'). unfold ieee_agrees_at_tenths in Hall.
  cbv zeta in Hall. rewrite forallb_forall in Hall.
  assert (Hk' : In k (seqZ 0 101)) by (apply list_elem_of_In, elem_of_seqZ; lia).
  specialize (Hall k Hk'). unfold ieee_agrees in Hall.
  apply andb_true_iff in Hall as [H1 H2].
  apply String.eqb_eq in H1. apply Bool.eqb_prop in H2. split; assumption.
Qed.

(** * Further properties of the sketch *)

(** ** What every pass of [loop] keeps *)

Lemma controlCoolerAndWaterPump_thresholds (now : Z) (w : World) :
  temperatureThreshold (controlCoolerAndWaterPump now w) = temperatureThreshold w /\
  humidityThreshold (controlCoolerAndWaterPump now w) = humidityThreshold w.
Proof.
  unfold controlCoolerAndWaterPump.
  destruct (last (sensorReadings w)) as [r|]; [|split; reflexivity].
  unfold seq_cmd.
  destruct (controlWaterPump_frame r now (controlCooler r w)) as (_ & -> & -> & _).
  destruct (controlCooler_frame r w) as (_ & _ & -> & -> & _).
  split; reflexivity.
Qed.

(** The history after a pass: the candidate pushed, or nothing changed. *)
Lemma loop_sensorReadings (i : Inputs) (w : World) :
  sensorReadings (loop i w) =
  if negb (isnan (dht_temp i)) && negb (isnan (dht_hum i))
  then push_bounded (sensorReadings w)
         {| temperature := dht_temp i; humidity := dht_hum i;
            timestamp := unix_time i mod ULONG_MOD |}
  else sensorReadings w.
Proof.
  rewrite loop_unfold, controlCoolerAndWaterPump_sensorReadings.
  unfold storeSensorData.
  destruct (negb (isnan (dht_temp i)) && negb (isnan (dht_hum i))); reflexivity.
Qed.

Lemma Forall_tail {A : Type} (P : A -> Prop) (l : list A) :
  Forall P l -> Forall P (tail l).
Proof. intros H. destruct H; simpl; auto. Qed.

(** X1. In every reachable state the history holds at most 100 entries,
    none of them carries a NaN, and every timestamp fits an
    [unsigned long]. *)
Theorem history_wellformed (w : World) :
  reachable w ->
  (length (sensorReadings w) <= 100)%nat /\
  Forall stored_entry_ok (sensorReadings w).
Proof.
  induction 1 as [|i w Hr [IHlen IHok]].
  - split; [simpl; lia | constructor].
  - rewrite loop_sensorReadings.
    destruct (negb (isnan (dht_temp i)) && negb (isnan (dht_hum i))) eqn:Hv;
      [|split; assumption].
    apply andb_true_iff in Hv as [Ht Hh].
    apply negb_true_iff in Ht, Hh.
    split; [apply push_bounded_length, IHlen|].
    unfold push_bounded. apply Forall_app. split.
    + destruct (100 <=? Z.of_nat (length (sensorReadings w)));
        [apply Forall_tail|]; assumption.
    + constructor; [|constructor].
      unfold stored_entry_ok; simpl. repeat split; try assumption;
        apply Z.mod_pos_bound; reflexivity.
Qed.

Lemma history_wellformed_witness :
  (length (sensorReadings (loop tick_failing (loop tick_accepting initial_world)))
   <= 100)%nat /\
  Forall stored_entry_ok
    (sensorReadings (loop tick_failing (loop tick_accepting initial_world))).
Proof.
  apply (history_wellformed (loop tick_failing (loop tick_accepting initial_world))).
  apply reachable_loop, reachable_loop, reachable_init.
Defined.

(** One evaluation on a non-empty history leaves the pump running or
    stopped, with matching pins. *)
Lemma controlCoolerAndWaterPump_pump (now : Z) (w : World) (r : SensorData) :
  latest w = Some r ->
  pump_running (controlCoolerAndWaterPump now w) \/
  pump_stopped (controlCoolerAndWaterPump now w).
Proof.
  intros Hl. unfold pump_running, pump_stopped, asserted, deasserted.
  destruct (flt (humidity r) (of_int (humidityThreshold w))) eqn:Hd.
  - destruct (controlCoolerAndWaterPump_deficit now w r Hl Hd)
      as (_ & -> & -> & ->).
    destruct (usub now _ <? waterPumpOnDuration); auto.
  - rewrite (controlCoolerAndWaterPump_nonempty _ _ _ Hl).
    destruct (controlCooler_frame r w) as (_ & _ & _ & Hh & _).
    rewrite <- Hh in Hd.
    destruct (controlWaterPump_satisfied r now (controlCooler r w) Hd)
      as (_ & -> & -> & ->). auto.
Qed.

(** A pass that finds the history empty changes the thresholds only. *)
Lemma loop_empty (i : Inputs) (w : World) :
  sensorReadings (loop i w) = [] ->
  loop i w = readThresholds (raw_temp i) (raw_hum i) w.
Proof.
  intros He. rewrite loop_unfold in *.
  rewrite controlCoolerAndWaterPump_sensorReadings in He.
  rewrite controlCoolerAndWaterPump_empty by assumption.
  apply storeSensorData_nonempty in He as [-> _]. reflexivity.
Qed.

(** X2. In every reachable state the reported states and the pins agree:
    the regulator is in one of its three configurations (Cooling with IN1
    high and the fan on, Heating with IN2 high and the fan on, Inactive
    with all four pins low) and the pump is On with its IN1 high or Off with
    its IN1 low; FAN_IN2 and WATERPUMP_IN2 are low throughout. *)
Theorem reported_state_matches_outputs (w : World) :
  reachable w ->
  (cooling_outputs w \/ heating_outputs w \/ inactive_outputs w) /\
  (pump_running w \/ pump_stopped w).
Proof.
  induction 1 as [|i w Hr IH].
  - split; [right; right|right]; vm_compute; repeat split.
  - destruct (latest (loop i w)) as [r|] eqn:Hl.
    + destruct (before_control_fields i w) as (_ & _ & _ & Hb).
      cbv zeta in Hb. rewrite Hl in Hb. symmetry in Hb.
      rewrite loop_unfold. fold (before_control i w). split.
      * exact (controlCoolerAndWaterPump_outputs _ _ _ Hb).
      * exact (controlCoolerAndWaterPump_pump _ _ _ Hb).
    + unfold latest in Hl. apply last_None in Hl.
      rewrite (loop_empty _ _ Hl). exact IH.
Qed.

Lemma reported_state_matches_outputs_witness :
  (cooling_outputs (loop tick_accepting initial_world) \/
   heating_outputs (loop tick_accepting initial_world) \/
   inactive_outputs (loop tick_accepting initial_world)) /\
  (pump_running (loop tick_accepting initial_world) \/
   pump_stopped (loop tick_accepting initial_world)).
Proof.
  apply (reported_state_matches_outputs (loop tick_accepting initial_world)).
  apply reachable_loop, reachable_init.
Defined.

(** What the regulator reports is the branch for the reading it found. *)
Lemma controlCoolerAndWaterPump_tecState (now : Z) (w : World) (r : SensorData) :
  latest w = Some r ->
  tecState (controlCoolerAndWaterPump now w)
  = thermal_branch (temperature r) (temperatureThreshold w).
Proof.
  intros Hl. rewrite (controlCoolerAndWaterPump_nonempty _ _ _ Hl).
  destruct (controlWaterPump_frame r now (controlCooler r w)) as (-> & _).
  pose proof (controlCooler_outputs r w) as Hc. cbv zeta in Hc.
  unfold thermal_branch.
  destruct (fgt _ _); [|destruct (flt _ _)]; destruct Hc as (-> & _); reflexivity.
Qed.

(** X3. In every reachable state with a reading, the reported states are
    the ones the latest reading and the current thresholds call for: the
    thermal state is the branch of the latest temperature at the current
    threshold, the pump is On only under a humidity deficit, and it is Off
    whenever the latest humidity has reached the threshold. *)
Theorem reported_state_justified (w : World) (r : SensorData) :
  reachable w -> latest w = Some r ->
  tecState w = thermal_branch (temperature r) (temperatureThreshold w) /\
  (waterPumpState w = "On" ->
   flt (humidity r) (of_int (humidityThreshold w)) = true) /\
  (fge (humidity r) (of_int (humidityThreshold w)) = true ->
   waterPumpState w = "Off").
Proof.
  intros Hr Hl. destruct Hr as [|i w Hr]; [discriminate|].
  destruct (before_control_fields i w) as (_ & _ & _ & Hb).
  cbv zeta in Hb. rewrite Hl in Hb. symmetry in Hb.
  pose proof (controlCoolerAndWaterPump_tecState (millis i) _ _ Hb) as Ht.
  pose proof (pump_determined (millis i) _ _ Hb) as Hp. cbv zeta in Hp.
  destruct (controlCoolerAndWaterPump_thresholds (millis i) (before_control i w))
    as (HT & HH).
  fold (before_control i w) in Ht, Hp.
  change (controlCoolerAndWaterPump (millis i) (before_control i w))
    with (loop i w) in Ht, Hp, HT, HH.
  rewrite HT, HH. split; [exact Ht|].
  unfold pump_decision in Hp.
  destruct (flt (humidity r) (of_int (humidityThreshold (before_control i w))))
    eqn:Hd.
  - split; [intros _; reflexivity|].
    intros Hg. apply fge_not_flt in Hg. congruence.
  - injection Hp as Hs _.
    split; [intros Hon; congruence | intros _; exact Hs].
Qed.

Lemma reported_state_justified_witness :
  tecState (loop tick_accepting initial_world)
  = thermal_branch (FFin 26) (temperatureThreshold (loop tick_accepting initial_world)).
Proof.
  exact (proj1 (reported_state_justified (loop tick_accepting initial_world)
                  {| temperature := FFin 26; humidity := FFin 55;
                     timestamp := 1700000000 |}
                  (reachable_loop _ _ reachable_init) eq_refl)).
Defined.

(** ** The writes of an evaluation *)

Lemma snoc4 {A : Type} (l : list A) (x y z u : A) :
  (((l ++ [x]) ++ [y]) ++ [z]) ++ [u] = l ++ [x; y; z; u].
Proof. rewrite <- !app_assoc. reflexivity. Qed.

Lemma snoc2 {A : Type} (l : list A) (x y : A) :
  (l ++ [x]) ++ [y] = l ++ [x; y].
Proof. rewrite <- !app_assoc. reflexivity. Qed.

Lemma controlCooler_writes (r : SensorData) (w : World) :
  exists a b c : level,
    writes (controlCooler r w)
    = writes w ++ [ (COOLER_IN1_PIN, a); (COOLER_IN2_PIN, b);
                    (FAN_IN1_PIN, c); (FAN_IN2_PIN, LOW) ] /\
    (c = HIGH <-> a = HIGH \/ b = HIGH) /\
    ~ (a = HIGH /\ b = HIGH).
Proof.
  unfold controlCooler.
  destruct (fgt _ _); [|destruct (flt _ _)]; unfold_cmds; cbn [writes];
    rewrite snoc4.
  - exists HIGH, LOW, HIGH. split; [reflexivity|]. split; [tauto|].
    intros [_ H]; discriminate.
  - exists LOW, HIGH, HIGH. split; [reflexivity|]. split; [tauto|].
    intros [H _]; discriminate.
  - exists LOW, LOW, LOW. split; [reflexivity|].
    split; [split; [discriminate | intros [H|H]; discriminate]|].
    intros [H _]; discriminate.
Qed.

Lemma controlWaterPump_writes (r : SensorData) (now : Z) (w : World) :
  exists e : level,
    writes (controlWaterPump r now w)
    = writes w ++ [ (WATERPUMP_IN1_PIN, e); (WATERPUMP_IN2_PIN, LOW) ].
Proof.
  unfold controlWaterPump.
  destruct (flt _ _); [destruct (_ <=? _); destruct (_ <? _)|];
    unfold_cmds; cbn [writes]; rewrite snoc2; eexists; reflexivity.
Qed.

(** X4. An evaluation on a non-empty history writes each of the six output
    pins exactly once, in the order COOLER_IN1, COOLER_IN2, FAN_IN1,
    FAN_IN2, WATERPUMP_IN1, WATERPUMP_IN2; FAN_IN2 and WATERPUMP_IN2 are
    written low, the fan is written high exactly when one of the direction
    pins is, and the two direction pins are not both written high. *)
Theorem evaluation_writes_six_pins (now : Z) (w : World) (r : SensorData) :
  latest w = Some r ->
  exists a b c e : level,
    writes (controlCoolerAndWaterPump now w)
    = writes w ++ [ (COOLER_IN1_PIN, a); (COOLER_IN2_PIN, b);
                    (FAN_IN1_PIN, c); (FAN_IN2_PIN, LOW);
                    (WATERPUMP_IN1_PIN, e); (WATERPUMP_IN2_PIN, LOW) ] /\
    (c = HIGH <-> a = HIGH \/ b = HIGH) /\
    ~ (a = HIGH /\ b = HIGH).
Proof.
  intros Hl. rewrite (controlCoolerAndWaterPump_nonempty _ _ _ Hl).
  destruct (controlCooler_writes r w) as (a & b & c & Hc & Hfan & Hex).
  destruct (controlWaterPump_writes r now (controlCooler r w)) as (e & He).
  exists a, b, c, e. rewrite He, Hc, <- app_assoc.
  split; [reflexivity|]. split; assumption.
Qed.

Lemma evaluation_writes_six_pins_witness :
  exists a b c e : level,
    writes (controlCoolerAndWaterPump 30000 (world_with 24 50 [reading 26 40]))
    = writes (world_with 24 50 [reading 26 40])
      ++ [ (COOLER_IN1_PIN, a); (COOLER_IN2_PIN, b);
           (FAN_IN1_PIN, c); (FAN_IN2_PIN, LOW);
           (WATERPUMP_IN1_PIN, e); (WATERPUMP_IN2_PIN, LOW) ] /\
    (c = HIGH <-> a = HIGH \/ b = HIGH) /\
    ~ (a = HIGH /\ b = HIGH).
Proof.
  apply (evaluation_writes_six_pins 30000 (world_with 24 50 [reading 26 40])
           (reading 26 40)).
  reflexivity.
Defined.

Lemma controlCoolerAndWaterPump_writes_ok (now : Z) (w : World) :
  Forall write_ok (writes w) ->
  Forall write_ok (writes (controlCoolerAndWaterPump now w)).
Proof.
  intros Hw. unfold controlCoolerAndWaterPump.
  destruct (last (sensorReadings w)) as [r|]; [|exact Hw].
  unfold seq_cmd.
  destruct (controlCooler_writes r w) as (a & b & c & Hc & _).
  destruct (controlWaterPump_writes r now (controlCooler r w)) as (e & He).
  rewrite He, Hc.
  apply Forall_app; split; [apply Forall_app; split; [exact Hw|]|];
    repeat constructor;
    unfold COOLER_IN1_PIN, COOLER_IN2_PIN, FAN_IN1_PIN, FAN_IN2_PIN,
      WATERPUMP_IN1_PIN, WATERPUMP_IN2_PIN; cbn [fst snd];
    first [tauto | intros [?|?]; (discriminate || reflexivity)].
Qed.

(** X5. Whatever the inputs, the sketch only ever writes its six output
    pins, and it never writes FAN_IN2 or WATERPUMP_IN2 high: fan and pump
    are never driven in reverse. *)
Theorem only_forward_writes (w : World) :
  reachable w -> Forall write_ok (writes w).
Proof.
  induction 1 as [|i w Hr IH].
  - constructor.
  - rewrite loop_unfold. apply controlCoolerAndWaterPump_writes_ok.
    unfold storeSensorData, readThresholds.
    destruct (negb _ && negb _); exact IH.
Qed.

Lemma only_forward_writes_witness :
  Forall write_ok (writes (loop tick_failing (loop tick_accepting initial_world))).
Proof.
  apply only_forward_writes.
  apply reachable_loop, reachable_loop, reachable_init.
Defined.

(** ** The pump timer *)

Lemma usub_add (a b c : Z) :
  usub c a = (usub b a + usub c b) mod ULONG_MOD.
Proof.
  unfold usub. rewrite <- Zplus_mod. f_equal. lia.
Qed.

Lemma usub_after (start d : Z) :
  0 <= d < ULONG_MOD -> usub ((start + d) mod ULONG_MOD) start = d.
Proof.
  intros Hd. unfold usub. rewrite Zminus_mod_idemp_l.
  replace (start + d - start) with d by lia.
  apply Z.mod_small, Hd.
Qed.

(** X6. The pump timer measures elapsed time across the roll-over of
    [millis]: if [d] milliseconds (less than 2^32) have really passed since
    the cycle start, whatever the counter reads now, an evaluation under a
    deficit switches the pump On exactly when [d < 2000] or [d >= 22000],
    and keeps the cycle start while [d < 22000]. *)
Theorem duty_cycle_across_rollover (d : Z) (w : World) (r : SensorData) :
  latest w = Some r ->
  flt (humidity r) (of_int (humidityThreshold w)) = true ->
  0 <= d < ULONG_MOD ->
  let now := (waterPumpCycleStartTime w + d) mod ULONG_MOD in
  let w' := controlCoolerAndWaterPump now w in
  (waterPumpState w' = "On" <->
   d < waterPumpOnDuration \/ waterPumpCyclePeriod <= d) /\
  (d < waterPumpCyclePeriod ->
   waterPumpCycleStartTime w' = waterPumpCycleStartTime w).
Proof.
  intros Hl Hd Hr. cbv zeta.
  destruct (controlCoolerAndWaterPump_deficit
              ((waterPumpCycleStartTime w + d) mod ULONG_MOD) w r Hl Hd)
    as (Hs & Hm & _).
  rewrite usub_after in Hs, Hm by assumption.
  rewrite Hs, Hm.
  unfold waterPumpCyclePeriod, waterPumpOnDuration, waterPumpOffDuration.
  destruct (Z.leb_spec (2000 + 20000) d) as [Hge|Hlt].
  - rewrite usub_self. change (0 <? 2000) with true.
    split; [split; [intros _; right; exact Hge | reflexivity] | lia].
  - rewrite usub_after by assumption.
    destruct (Z.ltb_spec d 2000) as [Hon|Hoff].
    + split; [split; [intros _; left; exact Hon | reflexivity] | reflexivity].
    + split; [split; [discriminate | lia] | reflexivity].
Qed.

Lemma duty_cycle_across_rollover_witness :
  waterPumpState
    (controlCoolerAndWaterPump 500
       (set_waterPumpCycleStartTime 4294966296 (world_with 24 50 [reading 24 40])))
  = "On".
Proof.
  pose (w := set_waterPumpCycleStartTime 4294966296
               (world_with 24 50 [reading 24 40])).
  assert (Hd : 0 <= 1500 < ULONG_MOD) by (unfold ULONG_MOD; lia).
  destruct (duty_cycle_across_rollover 1500 w (reading 24 40) eq_refl eq_refl Hd)
    as [[_ Hon] _].
  apply Hon. left. reflexivity.
Defined.

Lemma last_nonempty {A : Type} (l : list A) : l <> [] -> exists x, last l = Some x.
Proof.
  intros H. destruct (last l) as [x|] eqn:E; [eauto|].
  apply last_None in E. contradiction.
Qed.

(** X7. With passes of [loop] between 2 and 20 seconds apart the pump is
    never On after two consecutive passes: an On pulse lasts one pass. *)
Theorem pump_pulse_one_pass (w : World) (i j : Inputs) :
  reachable w ->
  waterPumpState (loop i w) = "On" ->
  waterPumpOnDuration <= usub (millis j) (millis i) <= waterPumpOffDuration ->
  waterPumpState (loop j (loop i w)) = "Off".
Proof.
  intros Hr Hon Hgap.
  assert (Hne : sensorReadings (loop i w) <> []).
  { intros He.
    destruct (reachable_empty_history (loop i w) (reachable_loop i w Hr) He)
      as (T & Hu & Hw).
    rewrite Hw in Hon. discriminate. }
  destruct (last_nonempty _ Hne) as [r1 Hl1].
  destruct (before_control_fields i w) as (_ & _ & _ & Hb1).
  cbv zeta in Hb1. unfold latest in Hb1 at 1. rewrite Hl1 in Hb1. symmetry in Hb1.
  pose proof (pump_determined (millis i) _ _ Hb1) as P1. cbv zeta in P1.
  change (controlCoolerAndWaterPump (millis i) (before_control i w))
    with (loop i w) in P1.
  assert (Hpos : usub (millis i) (waterPumpCycleStartTime (loop i w))
                 < waterPumpOnDuration).
  { unfold pump_decision in P1.
    destruct (flt (humidity r1) _); [|rewrite Hon in P1; discriminate].
    injection P1 as Hm Hs. rewrite Hs.
    destruct (Z.ltb_spec
                (usub (millis i)
                   (if waterPumpCyclePeriod <=?
                       usub (millis i) (waterPumpCycleStartTime (before_control i w))
                    then millis i
                    else waterPumpCycleStartTime (before_control i w)))
                waterPumpOnDuration) as [H|H]; [exact H|].
    rewrite Hon in Hm. discriminate. }
  assert (Hne2 : sensorReadings (before_control j (loop i w)) <> []).
  { unfold before_control, storeSensorData.
    destruct (negb _ && negb _); [|exact Hne].
    cbn. intros E. apply app_eq_nil in E as [_ E]. discriminate. }
  destruct (last_nonempty _ Hne2) as [r2 Hl2].
  pose proof (pump_determined (millis j) _ _ Hl2) as P2. cbv zeta in P2.
  change (controlCoolerAndWaterPump (millis j) (before_control j (loop i w)))
    with (loop j (loop i w)) in P2.
  destruct (before_control_fields j (loop i w)) as (_ & _ & Hs2 & _).
  cbv zeta in Hs2. rewrite Hs2 in P2.
  unfold pump_decision in P2.
  destruct (flt (humidity r2) _); [|injection P2 as Hm _; exact Hm].
  pose proof (usub_range (millis i) (waterPumpCycleStartTime (loop i w))) as R1.
  assert (He : usub (millis j) (waterPumpCycleStartTime (loop i w))
               = usub (millis i) (waterPumpCycleStartTime (loop i w))
                 + usub (millis j) (millis i)).
  { rewrite (usub_add _ (millis i)). apply Z.mod_small.
    unfold waterPumpOnDuration, waterPumpOffDuration, ULONG_MOD in *. lia. }
  rewrite He in P2.
  unfold waterPumpCyclePeriod, waterPumpOnDuration, waterPumpOffDuration in *.
  destruct (Z.leb_spec (2000 + 20000)
              (usub (millis i) (waterPumpCycleStartTime (loop i w))
               + usub (millis j) (millis i))) as [H|H]; [lia|].
  rewrite He in P2.
  destruct (Z.ltb_spec
              (usub (millis i) (waterPumpCycleStartTime (loop i w))
               + usub (millis j) (millis i)) 2000) as [H'|H']; [lia|].
  injection P2 as Hm _. exact Hm.
Qed.

Lemma pump_pulse_one_pass_witness :
  waterPumpState
    (loop (mkInputs 983 2048 FNaN FNaN 1700000002 32100)
       (loop (mkInputs 983 2048 (FFin 24) (FFin 40) 1700000000 30000)
          initial_world)) = "Off".
Proof.
  apply pump_pulse_one_pass.
  - apply reachable_init.
  - reflexivity.
  - vm_compute. split; discriminate.
Defined.

(** ** The display toggle *)

Lemma level_eqb_eq (a b : level) : level_eqb a b = true <-> a = b.
Proof. destruct a, b; simpl; split; congruence. Qed.

(** X9. When the two clock reads of a pass are at most 50 ms apart, the
    pass toggles the view exactly when the button reads low, read low on
    the pass before as well, and more than 50 ms have gone by since the last
    change of level: a released button, or a press seen for the first time,
    never toggles. *)
Theorem toggle_needs_held_button (b : level) (t_change t_check : Z) (p : Panel) :
  usub t_check t_change <= debounceDelay ->
  displayThresholds (buttonLogic b t_change t_check p)
  = negb (displayThresholds p)
  <-> b = LOW /\ lastButtonState p = LOW /\
      debounceDelay < usub t_check (lastDebounceTime p).
Proof.
  intros Hnear. unfold buttonLogic. cbn [displayThresholds].
  destruct (level_eqb b (lastButtonState p)) eqn:Hsame.
  - apply level_eqb_eq in Hsame.
    destruct (Z.ltb_spec debounceDelay (usub t_check (lastDebounceTime p)))
      as [Hlong|Hshort].
    + destruct b; cbn [level_eqb].
      * split; [intros _; auto | reflexivity].
      * split; [intros H; destruct (displayThresholds p); discriminate
               | intros [H _]; discriminate].
    + split; [intros H; destruct (displayThresholds p); discriminate
             | intros (_ & _ & H); lia].
  - assert (Hne : b <> lastButtonState p)
      by (intros E; apply level_eqb_eq in E; congruence).
    destruct (Z.ltb_spec debounceDelay (usub t_check t_change)) as [H|_]; [lia|].
    split; [intros H; destruct (displayThresholds p); discriminate|].
    intros (Hb & Hl & _). congruence.
Qed.

Lemma toggle_needs_held_button_witness :
  displayThresholds
    (buttonLogic LOW 4100 4100
       {| displayThresholds := false; lastButtonState := LOW;
          lastDebounceTime := 2000 |})
  = negb false.
Proof.
  apply (toggle_needs_held_button LOW 4100 4100
           {| displayThresholds := false; lastButtonState := LOW;
              lastDebounceTime := 2000 |}).
  - vm_compute. discriminate.
  - repeat split. 
Defined.

(** X10. A button held low toggles the view on every pass: one pass
    switches it, the next pass switches it back, and the time of the last
    change is not touched. *)
Theorem held_button_toggles_every_pass (c1 t1 c2 t2 : Z) (p : Panel) :
  lastButtonState p = LOW ->
  debounceDelay < usub t1 (lastDebounceTime p) ->
  debounceDelay < usub t2 (lastDebounceTime p) ->
  let p1 := buttonLogic LOW c1 t1 p in
  let p2 := buttonLogic LOW c2 t2 p1 in
  displayThresholds p1 = negb (displayThresholds p) /\
  displayThresholds p2 = displayThresholds p /\
  lastDebounceTime p2 = lastDebounceTime p.
Proof.
  intros Hl H1 H2. cbv zeta. unfold buttonLogic.
  cbn [displayThresholds lastButtonState lastDebounceTime].
  rewrite Hl. cbn [level_eqb].
  apply Z.ltb_lt in H1, H2. rewrite H1, H2.
  rewrite negb_involutive. repeat split.
Qed.

Lemma held_button_toggles_every_pass_witness :
  displayThresholds
    (buttonLogic LOW 6200 6200
       (buttonLogic LOW 4100 4100
          {| displayThresholds := false; lastButtonState := LOW;
             lastDebounceTime := 2000 |}))
  = false.
Proof.
  assert (H1 : debounceDelay < usub 4100 2000) by (vm_compute; reflexivity).
  assert (H2 : debounceDelay < usub 6200 2000) by (vm_compute; reflexivity).
  exact (proj1 (proj2
    (held_button_toggles_every_pass 4100 4100 6200 6200
       {| displayThresholds := false; lastButtonState := LOW;
          lastDebounceTime := 2000 |} eq_refl H1 H2))).
Defined.

(** ** The LCD *)

Lemma string_of_Z_percent (k : Z) :
  0 <= k <= 100 -> 1 <= Z.of_nat (String.length (string_of_Z k)) <= 3.
Proof.
  intros Hk.
  assert (Hall : forallb (fun k => let n := Z.of_nat (String.length (string_of_Z k)) in
                                   (1 <=? n) && (n <=? 3)) (seqZ 0 101) = true)
    by (vm_compute; reflexivity).
  rewrite forallb_forall in Hall.
  specialize (Hall k). cbv zeta in Hall.
  assert (Hin : In k (seqZ 0 101)) by (apply list_elem_of_In, elem_of_seqZ; lia).
  apply Hall in Hin. apply andb_true_iff in Hin as [H1 H2].
  apply Z.leb_le in H1, H2. lia.
Qed.

(** The columns the threshold view uses, for numerals of any length. *)
Lemma threshold_view_extent (printFloat1 : cfloat -> string) (p : Panel) (w : World) :
  displayThresholds p = true ->
  lcd_extent 0 (updateLCD printFloat1 p w)
  = 12 + Z.of_nat (String.length (string_of_Z (temperatureThreshold w))) /\
  lcd_extent 1 (updateLCD printFloat1 p w)
  = 11 + Z.of_nat (String.length (string_of_Z (humidityThreshold w))).
Proof.
  intros Hd. unfold lcd_extent, updateLCD. rewrite Hd.
  generalize (string_of_Z (temperatureThreshold w)) as sT.
  generalize (string_of_Z (humidityThreshold w)) as sH.
  intros sH sT.
  pose proof (Nat2Z.is_nonneg (String.length sT)) as HT.
  pose proof (Nat2Z.is_nonneg (String.length sH)) as HH.
  cbn -[Z.add Z.max Z.ltb Z.of_nat String.length].
  change (Z.of_nat (String.length "T Thresh: ")) with 10.
  change (Z.of_nat (String.length "H Thresh: ")) with 10.
  change (Z.of_nat (String.length degree_sign)) with 1.
  change (Z.of_nat (String.length "C")) with 1.
  change (Z.of_nat (String.length "%")) with 1.
  repeat match goal with
         | |- context [?a <? ?b] => destruct (Z.ltb_spec a b)
         end; split; lia.
Qed.

(** X11. After a pass of [loop] whose raw analog inputs lie in [0, 4095],
    the threshold view fits the display: neither row uses more than the 16
    columns. *)
Theorem threshold_view_fits (printFloat1 : cfloat -> string) (i : Inputs)
    (b : PanelInputs) (s : World * Panel) :
  raw_in_range i ->
  let out := loop_pass printFloat1 i b s in
  displayThresholds (snd (fst out)) = true ->
  lcd_extent 0 (snd out) <= LCD_COLS /\ lcd_extent 1 (snd out) <= LCD_COLS.
Proof.
  intros [HrT HrH]. unfold loop_pass. cbn [fst snd]. intros Hd.
  destruct (threshold_view_extent printFloat1 _ (loop i (fst s)) Hd) as [-> ->].
  destruct (loop_thresholds i (fst s)) as [-> ->].
  pose proof (string_of_Z_percent _ (map_range _ HrT)).
  pose proof (string_of_Z_percent _ (map_range _ HrH)).
  unfold LCD_COLS. lia.
Qed.

Lemma threshold_view_fits_witness :
  lcd_extent 0
    (snd (loop_pass (fun _ => "25.0") tick_accepting (mkPanelInputs LOW 8000 8000)
            (initial_world, mkPanel false LOW 2000))) <= LCD_COLS.
Proof.
  assert (Hr : raw_in_range tick_accepting) by (vm_compute; intuition discriminate).
  exact (proj1 (threshold_view_fits (fun _ => "25.0") tick_accepting
                  (mkPanelInputs LOW 8000 8000)
                  (initial_world, mkPanel false LOW 2000) Hr eq_refl)).
Defined.

(** X12. In the reading view on an empty history the placeholder text
    takes 17 columns of row 0, one more than the display has, whatever the
    rest of the state. *)
Theorem placeholder_overflows (printFloat1 : cfloat -> string) (p : Panel)
    (w : World) :
  displayThresholds p = false -> sensorReadings w = [] ->
  lcd_extent 0 (updateLCD printFloat1 p w) = 17 /\
  LCD_COLS < lcd_extent 0 (updateLCD printFloat1 p w).
Proof.
  intros Hd He. unfold lcd_extent, updateLCD. rewrite Hd, He.
  split; reflexivity.
Qed.

Lemma placeholder_overflows_witness :
  lcd_extent 0 (updateLCD (fun _ => "25.0") initial_panel initial_world) = 17.
Proof.
  exact (proj1 (placeholder_overflows (fun _ => "25.0") initial_panel
                  initial_world eq_refl eq_refl)).
Defined.

(** ** The status response *)

Lemma append_empty_r (s : string) : s +:+ EmptyString = s.
Proof.
  induction s as [|c s IH]; [reflexivity|].
  change (String c (s +:+ EmptyString) = String c s). f_equal. exact IH.
Qed.

Lemma json_data_loop_concat (toString1 : cfloat -> string)
    (rest : list SensorData) (i size : Z) :
  i + Z.of_nat (length rest) = size ->
  json_data_loop toString1 rest i size
  = String.concat "," (List.map (json_entry toString1) rest).
Proof.
  revert i. induction rest as [|d rest IH]; intros i Hi; [reflexivity|].
  cbn [json_data_loop List.map]. cbn [length] in Hi.
  rewrite IH by lia.
  destruct rest as [|d' rest'].
  - cbn [length] in Hi.
    destruct (Z.ltb_spec i (size - 1)); [lia|].
    cbn [List.map String.concat].
    rewrite !append_empty_r. reflexivity.
  - cbn [length] in Hi.
    destruct (Z.ltb_spec i (size - 1)); [|lia].
    reflexivity.
Qed.

(** X13. The loop that fills the [data] array of the status response emits
    one element per stored reading, oldest first, separated by commas, with
    no comma after the last one. *)
Theorem json_data_comma_separated (toString1 : cfloat -> string)
    (l : list SensorData) :
  json_data_loop toString1 l 0 (Z.of_nat (length l))
  = String.concat "," (List.map (json_entry toString1) l).
Proof.
  apply json_data_loop_concat. lia.
Qed.

(** ** The waits of [setup] *)

Lemma wifi_wait_from (connected : nat -> bool) (fuel poll : nat) (attempts : Z) :
  0 <= attempts <= 20 ->
  (Z.to_nat (20 - attempts) < fuel)%nat ->
  exists a : Z,
    wifi_wait fuel connected poll attempts = Some a /\
    attempts <= a <= 20 /\
    (forall k : nat, (k < Z.to_nat (a - attempts))%nat ->
                     connected (poll + k)%nat = false) /\
    (a < 20 -> connected (poll + Z.to_nat (a - attempts))%nat = true).
Proof.
  revert poll attempts.
  induction fuel as [|fuel IH]; intros poll attempts Ha Hf; [lia|].
  cbn [wifi_wait].
  destruct (connected poll) eqn:Hc; cbn [negb andb].
  - exists attempts. rewrite Z.sub_diag. cbn [Z.to_nat].
    rewrite Nat.add_0_r.
    repeat split; intros; try lia; auto.
  - destruct (Z.ltb_spec attempts 20) as [Hlt|Hge].
    + destruct (IH (S poll) (attempts + 1)) as (a & Hw & Hb & Hnone & Hfirst);
        [lia | lia |].
      exists a. split; [exact Hw|]. split; [lia|].
      replace (Z.to_nat (a - attempts)) with (S (Z.to_nat (a - (attempts + 1))))
        by lia.
      split.
      * intros [|k] Hk.
        -- rewrite Nat.add_0_r. exact Hc.
        -- replace (poll + S k)%nat with (S poll + k)%nat by lia.
           apply Hnone. lia.
      * intros Hlt20.
        replace (poll + S (Z.to_nat (a - (attempts + 1))))%nat
          with (S poll + Z.to_nat (a - (attempts + 1)))%nat by lia.
        apply Hfirst, Hlt20.
    + exists attempts. rewrite Z.sub_diag. cbn [Z.to_nat].
      repeat split; intros; try lia.
Qed.

(** X14. The wait for WiFi in [setup] always ends: it takes at most 20
    delays of 500 ms, every poll before its end found no connection, and
    when it ends before the 20th delay the poll that ended it found the
    connection. *)
Theorem wifi_wait_gives_up (connected : nat -> bool) (fuel : nat) :
  (21 <= fuel)%nat ->
  exists a : Z,
    wifi_wait fuel connected 0 0 = Some a /\
    0 <= a <= 20 /\
    (forall k : nat, (k < Z.to_nat a)%nat -> connected k = false) /\
    (a < 20 -> connected (Z.to_nat a) = true).
Proof.
  intros Hf.
  destruct (wifi_wait_from connected fuel 0 0) as (a & Hw & Hb & Hnone & Hfirst);
    [lia | cbn; lia |].
  exists a. rewrite Z.sub_0_r in Hnone, Hfirst.
  repeat split; try assumption; lia.
Qed.

Lemma wifi_wait_gives_up_witness :
  exists a : Z,
    wifi_wait 25 (fun k => Nat.leb 3 k) 0 0 = Some a /\
    0 <= a <= 20 /\
    (forall k : nat, (k < Z.to_nat a)%nat -> Nat.leb 3 k = false) /\
    (a < 20 -> Nat.leb 3 (Z.to_nat a) = true).
Proof.
  apply (wifi_wait_gives_up (fun k => Nat.leb 3 k) 25). lia.
Defined.

Lemma ntp_wait_from (clock : nat -> Z) (fuel poll k : nat) :
  ntp_wait fuel clock poll = Some k <->
  (poll <= k < poll + fuel)%nat /\ 24 * 3600 <= clock k /\
  (forall j : nat, (poll <= j < k)%nat -> clock j < 24 * 3600).
Proof.
  revert poll. induction fuel as [|fuel IH]; intros poll; cbn [ntp_wait].
  - split; [discriminate | intros ([? ?] & _); lia].
  - destruct (Z.ltb_spec (clock poll) (24 * 3600)) as [Hlt|Hge].
    + rewrite IH. split.
      * intros (Hk & Hc & Hj). split; [lia|]. split; [exact Hc|].
        intros j Hjr. destruct (Nat.eq_dec j poll) as [->|Hne]; [exact Hlt|].
        apply Hj. lia.
      * intros (Hk & Hc & Hj).
        assert (k <> poll) by (intros ->; lia).
        split; [lia|]. split; [exact Hc|]. intros j Hjr. apply Hj. lia.
    + split.
      * intros E. injection E as <-. split; [lia|]. split; [exact Hge|].
        intros j Hj. lia.
      * intros (Hk & Hc & Hj).
        destruct (Nat.eq_dec k poll) as [->|Hne]; [reflexivity|].
        specialize (Hj poll). lia.
Qed.

(** X15. The wait for the clock in [setup] is left exactly at the first
    poll at which the clock reads at least one day (86400 s); as long as
    the clock stays below, the wait does not end, whatever the number of
    polls. *)
Theorem ntp_wait_until_synchronised (clock : nat -> Z) (fuel k : nat) :
  (ntp_wait fuel clock 0 = Some k <->
   (k < fuel)%nat /\ 86400 <= clock k /\
   (forall j : nat, (j < k)%nat -> clock j < 86400)) /\
  ((forall j : nat, clock j < 86400) -> ntp_wait fuel clock 0 = None).
Proof.
  split.
  - rewrite (ntp_wait_from clock fuel 0 k). change (24 * 3600) with 86400.
    split.
    + intros (Hk & Hc & Hj). repeat split; try assumption; try lia.
      intros j Hjk. apply Hj. lia.
    + intros (Hk & Hc & Hj). repeat split; try assumption; try lia.
      intros j Hjk. apply Hj. lia.
  - intros Hnever. destruct (ntp_wait fuel clock 0) as [k'|] eqn:E; [|reflexivity].
    apply (ntp_wait_from clock fuel 0 k') in E as (_ & Hc & _).
    change (24 * 3600) with 86400 in Hc.
    specialize (Hnever k'). lia.
Qed.

Lemma ntp_wait_until_synchronised_witness :
  ntp_wait 10 (fun k => if Nat.leb 4 k then 1700000000 else 7) 0 = Some 4%nat.
Proof.
  apply (ntp_wait_until_synchronised
           (fun k => if Nat.leb 4 k then 1700000000 else 7) 10 4).
  split; [lia|]. split; [vm_compute; discriminate|].
  intros j Hj. destruct j as [|[|[|[|j]]]]; try reflexivity. lia.
Defined.

(** ** Freshness of what a pass acts on *)

Lemma before_control_thresholds (i : Inputs) (w : World) :
  temperatureThreshold (before_control i w) = map (raw_temp i) 0 4095 0 100 /\
  humidityThreshold (before_control i w) = map (raw_hum i) 0 4095 0 100.
Proof.
  destruct (before_control_fields i w) as (HT & HH & _). split; assumption.
Qed.

(** X16. A pass that reads a valid sample acts on it at once: the sample
    is the latest entry of the history after the pass, the thermal state is
    the branch of the sampled temperature at the threshold read in the same
    pass, and the pump is On only if the sampled humidity is below the
    humidity threshold read in the same pass. *)
Theorem fresh_sample_used_in_same_pass (i : Inputs) (w : World) :
  isnan (dht_temp i) = false -> isnan (dht_hum i) = false ->
  latest (loop i w)
  = Some {| temperature := dht_temp i; humidity := dht_hum i;
            timestamp := unix_time i mod ULONG_MOD |} /\
  tecState (loop i w)
  = thermal_branch (dht_temp i) (map (raw_temp i) 0 4095 0 100) /\
  (waterPumpState (loop i w) = "On" ->
   flt (dht_hum i) (of_int (map (raw_hum i) 0 4095 0 100)) = true).
Proof.
  intros Ht Hh.
  assert (Hl : latest (before_control i w)
               = Some {| temperature := dht_temp i; humidity := dht_hum i;
                         timestamp := unix_time i mod ULONG_MOD |}).
  { unfold latest, before_control, storeSensorData. rewrite Ht, Hh.
    cbn. apply last_snoc. }
  destruct (before_control_thresholds i w) as (HT & HH).
  destruct (before_control_fields i w) as (_ & _ & _ & Hb). cbv zeta in Hb.
  split; [rewrite Hb; exact Hl|].
  pose proof (controlCoolerAndWaterPump_tecState (millis i) _ _ Hl) as Hs.
  pose proof (pump_determined (millis i) _ _ Hl) as Hp. cbv zeta in Hp.
  change (controlCoolerAndWaterPump (millis i) (before_control i w))
    with (loop i w) in Hs, Hp.
  cbn [temperature humidity] in Hs, Hp. rewrite HT in Hs. rewrite HH in Hp.
  split; [exact Hs|].
  intros Hon. unfold pump_decision in Hp.
  destruct (flt (dht_hum i) _); [reflexivity|].
  injection Hp as Hm _. congruence.
Qed.

Lemma fresh_sample_used_in_same_pass_witness :
  tecState (loop tick_accepting initial_world)
  = thermal_branch (FFin 26) (map 983 0 4095 0 100).
Proof.
  exact (proj1 (proj2
    (fresh_sample_used_in_same_pass tick_accepting initial_world eq_refl eq_refl))).
Defined.

(** X17. While the sensor fails, turning a potentiometer still takes
    effect: a pass that rejects its sample re-evaluates the previous
    reading against the thresholds read in that pass. *)
Theorem thresholds_apply_without_new_sample (i : Inputs) (w : World)
    (r : SensorData) :
  isnan (dht_temp i) = true \/ isnan (dht_hum i) = true ->
  latest w = Some r ->
  latest (loop i w) = Some r /\
  tecState (loop i w)
  = thermal_branch (temperature r) (map (raw_temp i) 0 4095 0 100) /\
  (waterPumpState (loop i w) = "On" ->
   flt (humidity r) (of_int (map (raw_hum i) 0 4095 0 100)) = true) /\
  (fge (humidity r) (of_int (map (raw_hum i) 0 4095 0 100)) = true ->
   waterPumpState (loop i w) = "Off").
Proof.
  intros Hn Hw.
  assert (Hl : latest (before_control i w) = Some r).
  { unfold before_control. rewrite storeSensorData_nan by assumption.
    exact Hw. }
  destruct (before_control_thresholds i w) as (HT & HH).
  destruct (before_control_fields i w) as (_ & _ & _ & Hb). cbv zeta in Hb.
  split; [rewrite Hb; exact Hl|].
  pose proof (controlCoolerAndWaterPump_tecState (millis i) _ _ Hl) as Hs.
  pose proof (pump_determined (millis i) _ _ Hl) as Hp. cbv zeta in Hp.
  change (controlCoolerAndWaterPump (millis i) (before_control i w))
    with (loop i w) in Hs, Hp.
  rewrite HT in Hs. rewrite HH in Hp.
  split; [exact Hs|].
  unfold pump_decision in Hp.
  destruct (flt (humidity r) _) eqn:Hd.
  - split; [reflexivity|]. intros Hg. apply fge_not_flt in Hg. congruence.
  - injection Hp as Hm _. split; [congruence | intros _; exact Hm].
Qed.

Lemma thresholds_apply_without_new_sample_witness :
  tecState
    (loop (mkInputs 2048 2048 FNaN FNaN 1700000002 10100)
       (loop tick_accepting initial_world))
  = thermal_branch (FFin 26) (map 2048 0 4095 0 100).
Proof.
  exact (proj1 (proj2
    (thresholds_apply_without_new_sample
       (mkInputs 2048 2048 FNaN FNaN 1700000002 10100)
       (loop tick_accepting initial_world)
       {| temperature := FFin 26; humidity := FFin 55; timestamp := 1700000000 |}
       (or_introl eq_refl) eq_refl))).
Defined.
